(** * Student attendance backend (backend/server.py): attendance engine,
    report generator and class authorization, as a shallow embedding.

    The MongoDB collections are lists of documents in natural (insertion)
    order; every route handler is a function from the collections it reads
    to the collections it leaves behind and the value it returns or the
    exception it raises.  The values of [uuid.uuid4()] and
    [datetime.now(timezone.utc)] drawn during one request are inputs of the
    handler ([Effects]). *)

From Stdlib Require Import ZArith Floats.
From stdpp Require Import base option list strings pretty sorting gmap.

Local Open Scope string_scope.
Local Open Scope list_scope.

(** ** Python values *)

(** Timestamps are kept in the [isoformat()] form the documents store. *)
Definition datetime := string.

(** Truthiness of an [Optional[str]]: [None] and the empty string are falsy. *)
Definition truthy (o : option string) : bool :=
  match o with
  | Some s => bool_decide (s ≠ "")
  | None => false
  end.

(** Exceptions a handler can leave with. [HTTPException 404], [403] and [400]
    are the NotFound, Forbidden and Conflict outcomes. *)
Inductive PyExc :=
  | HTTPException (status_code : nat) (detail : string)
  | KeyError (key : string)
  | ValidationError (field : string)
  | TypeError
  | ZeroDivisionError.

Inductive result (A : Type) :=
  | Ok (a : A)
  | Raise (e : PyExc).
Arguments Ok {A} a.
Arguments Raise {A} e.

Global Instance result_ret : MRet result := λ A a, Ok a.

Global Instance result_bind : MBind result := λ A B k r,
  match r with
  | Ok a => k a
  | Raise e => Raise e
  end.

Definition is_ok {A} (r : result A) : Prop :=
  match r with Ok _ => True | Raise _ => False end.

(** ** Models *)

Module User.
Record t := mk {
  id : string;
  email : string;
  name : string;
  role : string;          (* teacher or admin *)
  created_at : datetime
}.
End User.

Module Student.
Record t := mk {
  id : string;
  name : string;
  roll_number : string;
  class_id : string;
  email : option string;
  phone : option string;
  created_at : datetime
}.
End Student.

Module Klass.
(** [class Class(BaseModel)]. *)
Record t := mk {
  id : string;
  name : string;
  section : string;
  subject : option string;
  teacher_id : string;
  created_at : datetime
}.
End Klass.

Module ClassCreate.
Record t := mk {
  name : string;
  section : string;
  subject : option string
}.
End ClassCreate.

Module Attendance.
Record t := mk {
  id : string;
  student_id : string;
  class_id : string;
  date : string;          (* YYYY-MM-DD format *)
  status : string;        (* present, absent, late *)
  marked_by : string;     (* teacher_id *)
  remarks : option string;
  created_at : datetime;
  updated_at : datetime
}.
End Attendance.

Module AttendanceCreate.
Record t := mk {
  student_id : string;
  class_id : string;
  date : string;
  status : string;
  remarks : option string
}.
End AttendanceCreate.

(** ** The persistence layer: a collection is a list of documents *)

Module Mongo.
Section Collection.
Context {A : Type} (P : A → Prop) `{!∀ x, Decision (P x)}.

(** [find_one(q)]: the first document matching [q]. *)
Definition find_one (c : list A) : option A := head (filter P c).

(** [find(q).to_list(n)]: the first [n] matching documents, in order. *)
Definition find (n : nat) (c : list A) : list A := take n (filter P c).

(** [update_one(q, patch)]: the first matching document is
    rewritten in place; nothing happens when none matches. *)
Fixpoint update_one (set : A → A) (c : list A) : list A :=
  match c with
  | [] => []
  | x :: c' => if decide (P x) then set x :: c' else x :: update_one set c'
  end.

(** [delete_one(q)]: the first matching document is removed; the second
    component is [deleted_count]. *)
Fixpoint delete_one (c : list A) : list A * nat :=
  match c with
  | [] => ([], 0)
  | x :: c' =>
      if decide (P x) then (c', 1)
      else let '(c'', n) := delete_one c' in (x :: c'', n)
  end.
End Collection.

Definition insert_one {A} (doc : A) (c : list A) : list A := c ++ [doc].
End Mongo.

(** ** Attendance routes *)

(** What the impure calls of one request (or one loop iteration) return:
    [uuid4()] for the [id] default, and the clock readings in the order they
    are taken. *)
Record Effects := {
  uuid4 : string;
  now1 : datetime;
  now2 : datetime
}.

(** The filter on [student_id], [class_id] and [date]. *)
Definition same_triple (s c d : string) (r : Attendance.t) : Prop :=
  Attendance.student_id r = s ∧ Attendance.class_id r = c ∧ Attendance.date r = d.

Global Instance same_triple_dec s c d r : Decision (same_triple s c d r).
Proof. unfold same_triple. apply _. Defined.

Definition has_id (i : string) (r : Attendance.t) : Prop := Attendance.id r = i.

Global Instance has_id_dec i r : Decision (has_id i r).
Proof. unfold has_id. apply _. Defined.

(** The [$set] patch [update_data]: [attendance_input.model_dump()]
    extended by [marked_by] and [updated_at]. *)
Definition set_update (inp : AttendanceCreate.t) (marked_by updated_at : string)
    (doc : Attendance.t) : Attendance.t :=
  {| Attendance.id := Attendance.id doc;
     Attendance.student_id := AttendanceCreate.student_id inp;
     Attendance.class_id := AttendanceCreate.class_id inp;
     Attendance.date := AttendanceCreate.date inp;
     Attendance.status := AttendanceCreate.status inp;
     Attendance.marked_by := marked_by;
     Attendance.remarks := AttendanceCreate.remarks inp;
     Attendance.created_at := Attendance.created_at doc;
     Attendance.updated_at := updated_at |}.

(** The [Attendance] constructor applied to the input fields and
    [marked_by]: the three default factories run, in field order. *)
Definition new_attendance (e : Effects) (inp : AttendanceCreate.t) (marked_by : string)
    : Attendance.t :=
  {| Attendance.id := uuid4 e;
     Attendance.student_id := AttendanceCreate.student_id inp;
     Attendance.class_id := AttendanceCreate.class_id inp;
     Attendance.date := AttendanceCreate.date inp;
     Attendance.status := AttendanceCreate.status inp;
     Attendance.marked_by := marked_by;
     Attendance.remarks := AttendanceCreate.remarks inp;
     Attendance.created_at := now1 e;
     Attendance.updated_at := now2 e |}.

(** [POST /attendance]. The second component is the response; in the update
    branch it is the document read back by id. *)
Definition mark_attendance (e : Effects) (current_user : User.t)
    (attendance_input : AttendanceCreate.t) (attendance : list Attendance.t)
    : list Attendance.t * result Attendance.t :=
  let q := same_triple (AttendanceCreate.student_id attendance_input)
                       (AttendanceCreate.class_id attendance_input)
                       (AttendanceCreate.date attendance_input) in
  match Mongo.find_one q attendance with
  | Some existing =>
      let attendance' :=
        Mongo.update_one (has_id (Attendance.id existing))
          (set_update attendance_input (User.id current_user) (now1 e)) attendance in
      match Mongo.find_one (has_id (Attendance.id existing)) attendance' with
      | Some updated => (attendance', Ok updated)
      | None => (attendance', Raise TypeError)   (* subscripting None *)
      end
  | None =>
      let doc := new_attendance e attendance_input (User.id current_user) in
      (Mongo.insert_one doc attendance, Ok doc)
  end.

(** *** Bulk marking *)

(** The entries of [attendance_records] are untyped dicts of JSON values. *)
Inductive json :=
  | JNull
  | JBool (b : bool)
  | JInt (z : Z)
  | JStr (s : string).

Module BulkAttendanceCreate.
Record t := mk {
  class_id : string;
  date : string;
  attendance_records : list (gmap string json)
}.
End BulkAttendanceCreate.

(** [record[k]] and [record.get(k)]. *)
Definition subscript (record : gmap string json) (k : string) : result json :=
  match record !! k with
  | Some v => Ok v
  | None => Raise (KeyError k)
  end.

Definition dict_get (record : gmap string json) (k : string) : json :=
  default JNull (record !! k).

(** Validation of a [str] and of an [Optional[str]] field. *)
Definition validate_str (field : string) (v : json) : result string :=
  match v with
  | JStr s => Ok s
  | _ => Raise (ValidationError field)
  end.

Definition validate_optional_str (field : string) (v : json) : result (option string) :=
  match v with
  | JNull => Ok None
  | JStr s => Ok (Some s)
  | _ => Raise (ValidationError field)
  end.

(** The [AttendanceCreate] built from one entry: the keyword arguments are
    evaluated left to right, then the model validates them. *)
Definition attendance_create_of (class_id date : string) (record : gmap string json)
    : result AttendanceCreate.t :=
  sid ← subscript record "student_id";
  st ← subscript record "status";
  let rem := dict_get record "remarks" in
  sid' ← validate_str "student_id" sid;
  st' ← validate_str "status" st;
  rem' ← validate_optional_str "remarks" rem;
  mret {| AttendanceCreate.student_id := sid';
          AttendanceCreate.class_id := class_id;
          AttendanceCreate.date := date;
          AttendanceCreate.status := st';
          AttendanceCreate.remarks := rem' |}.

Module BulkResult.
Record t := mk {
  student_id : string;
  action : string
}.
End BulkResult.

Module BulkResponse.
Record t := mk {
  message : string;
  results : list BulkResult.t
}.
End BulkResponse.

(** The [for record in bulk_input.attendance_records] loop; iteration [i]
    draws [env i]. An exception leaves the loop with the collection as the
    earlier iterations wrote it. *)
Fixpoint bulk_loop (env : nat → Effects) (i : nat) (current_user : User.t)
    (class_id date : string) (records : list (gmap string json))
    (attendance : list Attendance.t) (results : list BulkResult.t)
    : list Attendance.t * result (list BulkResult.t) :=
  match records with
  | [] => (attendance, Ok results)
  | record :: records' =>
      match attendance_create_of class_id date record with
      | Raise exc => (attendance, Raise exc)
      | Ok attendance_input =>
          let q := same_triple (AttendanceCreate.student_id attendance_input)
                               (AttendanceCreate.class_id attendance_input)
                               (AttendanceCreate.date attendance_input) in
          match Mongo.find_one q attendance with
          | Some existing =>
              bulk_loop env (S i) current_user class_id date records'
                (Mongo.update_one (has_id (Attendance.id existing))
                   (set_update attendance_input (User.id current_user) (now1 (env i)))
                   attendance)
                (results ++ [BulkResult.mk (AttendanceCreate.student_id attendance_input)
                               "updated"])
          | None =>
              bulk_loop env (S i) current_user class_id date records'
                (Mongo.insert_one
                   (new_attendance (env i) attendance_input (User.id current_user))
                   attendance)
                (results ++ [BulkResult.mk (AttendanceCreate.student_id attendance_input)
                               "created"])
          end
      end
  end.

(** [POST /attendance/bulk]. *)
Definition mark_bulk_attendance (env : nat → Effects) (current_user : User.t)
    (bulk_input : BulkAttendanceCreate.t) (attendance : list Attendance.t)
    : list Attendance.t * result BulkResponse.t :=
  let '(attendance', r) :=
    bulk_loop env 0 current_user
      (BulkAttendanceCreate.class_id bulk_input) (BulkAttendanceCreate.date bulk_input)
      (BulkAttendanceCreate.attendance_records bulk_input) attendance [] in
  (attendance',
   results ← r;
   mret (BulkResponse.mk "Bulk attendance marked successfully" results)).

(** *** Queries *)

(** The constraint a query dict puts on [date]. *)
Inductive date_filter :=
  | DateAny
  | DateEq (d : string)
  | DateRange (gte lte : string).

(** The query dict of [get_attendance] and of the report. *)
Record Query := {
  q_class_id : option string;
  q_student_id : option string;
  q_date : date_filter
}.

(** String order of the store: byte-wise lexicographic. *)
Definition str_le (a b : string) : Prop := String.leb a b = true.

Definition date_matches (f : date_filter) (d : string) : Prop :=
  match f with
  | DateAny => True
  | DateEq d' => d = d'
  | DateRange gte lte => str_le gte d ∧ str_le d lte
  end.

Definition field_matches (f : option string) (v : string) : Prop :=
  match f with
  | None => True
  | Some v' => v = v'
  end.

Definition matches (q : Query) (r : Attendance.t) : Prop :=
  field_matches (q_class_id q) (Attendance.class_id r) ∧
  field_matches (q_student_id q) (Attendance.student_id r) ∧
  date_matches (q_date q) (Attendance.date r).

Global Instance date_matches_dec f d : Decision (date_matches f d).
Proof. destruct f; unfold date_matches, str_le; apply _. Defined.

Global Instance field_matches_dec f v : Decision (field_matches f v).
Proof. destruct f; unfold field_matches; apply _. Defined.

Global Instance matches_dec q r : Decision (matches q r).
Proof. unfold matches. apply _. Defined.

(** The query dict [get_attendance] builds from its parameters. *)
Definition attendance_query (class_id student_id date start_date end_date : option string)
    : Query :=
  {| q_class_id := if truthy class_id then class_id else None;
     q_student_id := if truthy student_id then student_id else None;
     q_date :=
       if truthy date then DateEq (default "" date)
       else if truthy start_date && truthy end_date
            then DateRange (default "" start_date) (default "" end_date)
            else DateAny |}.

(** [GET /attendance]. *)
Definition get_attendance (class_id student_id date start_date end_date : option string)
    (attendance : list Attendance.t) : list Attendance.t :=
  Mongo.find (matches (attendance_query class_id student_id date start_date end_date))
    10000 attendance.

(** *** Numbers of the report *)

(** The percentage is the int [0] or a float. *)
Inductive pynum :=
  | PyInt (z : Z)
  | PyFloat (f : float).

(** [float(n)] for a count [n] (exact below [2^53]). *)
Definition float_of_nat (n : nat) : float :=
  PrimFloat.of_uint63 (Uint63.of_Z (Z.of_nat n)).

(** [a / b] on ints: true division. *)
Definition truediv (a b : nat) : result float :=
  if decide (b = 0) then Raise ZeroDivisionError
  else Ok (float_of_nat a / float_of_nat b)%float.

(** Nearest integer to [num / 2^k], ties to even. *)
Definition round_half_even_shift (num : Z) (k : Z) : Z :=
  let den := (2 ^ k)%Z in
  let q := (num / den)%Z in
  let r := (num mod den)%Z in
  match (2 * r ?= den)%Z with
  | Lt => q
  | Gt => (q + 1)%Z
  | Eq => if Z.even q then q else (q + 1)%Z
  end.

(** [round(x, 2)] on a float: the exact binary value of [x] is rounded to the
    nearest hundredth, ties to even, and the decimal result is read back as
    the nearest float (for [|x| * 100 < 2^53]). Zeros, infinities and NaN are
    returned as they are. *)
Definition float_round2 (x : float) : float :=
  match Prim2SF x with
  | S754_finite s m e =>
      let n :=
        if (0 <=? e)%Z then (Z.pos m * 100 * 2 ^ e)%Z
        else round_half_even_shift (Z.pos m * 100) (- e) in
      let r := (PrimFloat.of_uint63 (Uint63.of_Z n) / 100)%float in
      if s then (- r)%float else r
  | _ => x
  end.

(** [round(v, 2)]: an int is returned unchanged. *)
Definition round2 (v : pynum) : pynum :=
  match v with
  | PyInt z => PyInt z
  | PyFloat f => PyFloat (float_round2 f)
  end.

(** *** The report *)

Module StudentStat.
Record t := mk {
  student_id : string;
  student_name : string;
  roll_number : string;
  total_days : nat;
  present : nat;
  absent : nat;
  late : nat;
  attendance_percentage : pynum
}.
End StudentStat.

Module Report.
Record t := mk {
  class_id : string;
  start_date : string;
  end_date : string;
  report : list StudentStat.t
}.
End Report.

Definition in_class (class_id : string) (s : Student.t) : Prop :=
  Student.class_id s = class_id.

Global Instance in_class_dec c s : Decision (in_class c s).
Proof. unfold in_class. apply _. Defined.

Definition of_student (student_id : string) (r : Attendance.t) : Prop :=
  Attendance.student_id r = student_id.

Global Instance of_student_dec i r : Decision (of_student i r).
Proof. unfold of_student. apply _. Defined.

Definition has_status (status : string) (r : Attendance.t) : Prop :=
  Attendance.status r = status.

Global Instance has_status_dec s r : Decision (has_status s r).
Proof. unfold has_status. apply _. Defined.

(** [len(set([r['date'] for r in attendance_records]))]. *)
Definition count_dates (attendance_records : list Attendance.t) : nat :=
  size (list_to_set (C := gset string) (Attendance.date <$> attendance_records)).

(** The body of the [for student in students] loop. *)
Definition student_stat (attendance_records : list Attendance.t) (student : Student.t)
    : result StudentStat.t :=
  let student_attendance := filter (of_student (Student.id student)) attendance_records in
  let total_days := count_dates attendance_records in
  let present_count := length (filter (has_status "present") student_attendance) in
  let absent_count := length (filter (has_status "absent") student_attendance) in
  let late_count := length (filter (has_status "late") student_attendance) in
  attendance_percentage ←
    (if decide (0 < total_days)
     then q ← truediv present_count total_days; mret (PyFloat (q * 100)%float)
     else mret (PyInt 0));
  mret {| StudentStat.student_id := Student.id student;
          StudentStat.student_name := Student.name student;
          StudentStat.roll_number := Student.roll_number student;
          StudentStat.total_days := total_days;
          StudentStat.present := present_count;
          StudentStat.absent := absent_count;
          StudentStat.late := late_count;
          StudentStat.attendance_percentage := round2 attendance_percentage |}.

(** The loop itself: the first exception ends it. *)
Fixpoint report_loop (attendance_records : list Attendance.t) (students : list Student.t)
    : result (list StudentStat.t) :=
  match students with
  | [] => Ok []
  | student :: students' =>
      stat ← student_stat attendance_records student;
      rest ← report_loop attendance_records students';
      mret (stat :: rest)
  end.

(** The students and the attendance records the report fetches. *)
Definition report_students (class_id : string) (students : list Student.t)
    : list Student.t :=
  Mongo.find (in_class class_id) 1000 students.

Definition report_records (class_id start_date end_date : string)
    (attendance : list Attendance.t) : list Attendance.t :=
  Mongo.find
    (matches {| q_class_id := Some class_id; q_student_id := None;
                q_date := DateRange start_date end_date |})
    10000 attendance.

(** [GET /attendance/report]. *)
Definition get_attendance_report (class_id start_date end_date : string)
    (students : list Student.t) (attendance : list Attendance.t) : result Report.t :=
  let students := report_students class_id students in
  let attendance_records := report_records class_id start_date end_date attendance in
  report ← report_loop attendance_records students;
  mret (Report.mk class_id start_date end_date report).

(** ** Class routes *)

Definition class_has_id (class_id : string) (c : Klass.t) : Prop := Klass.id c = class_id.

Global Instance class_has_id_dec i c : Decision (class_has_id i c).
Proof. unfold class_has_id. apply _. Defined.

(** The [$set] patch [class_input.model_dump()]. *)
Definition set_class (inp : ClassCreate.t) (doc : Klass.t) : Klass.t :=
  {| Klass.id := Klass.id doc;
     Klass.name := ClassCreate.name inp;
     Klass.section := ClassCreate.section inp;
     Klass.subject := ClassCreate.subject inp;
     Klass.teacher_id := Klass.teacher_id doc;
     Klass.created_at := Klass.created_at doc |}.

(** [PUT /classes/{class_id}]. *)
Definition update_class (class_id : string) (class_input : ClassCreate.t)
    (current_user : User.t) (classes : list Klass.t) : list Klass.t * result Klass.t :=
  match Mongo.find_one (class_has_id class_id) classes with
  | None => (classes, Raise (HTTPException 404 "Class not found"))
  | Some existing =>
      if decide (User.role current_user ≠ "admin"
                 ∧ Klass.teacher_id existing ≠ User.id current_user)
      then (classes, Raise (HTTPException 403 "Not authorized to update this class"))
      else
        let classes' :=
          Mongo.update_one (class_has_id class_id) (set_class class_input) classes in
        match Mongo.find_one (class_has_id class_id) classes' with
        | Some updated => (classes', Ok updated)
        | None => (classes', Raise TypeError)   (* subscripting None *)
        end
  end.

(** [DELETE /classes/{class_id}]. *)
Definition delete_class (class_id : string) (current_user : User.t)
    (classes : list Klass.t) : list Klass.t * result string :=
  match Mongo.find_one (class_has_id class_id) classes with
  | None => (classes, Raise (HTTPException 404 "Class not found"))
  | Some existing =>
      if decide (User.role current_user ≠ "admin"
                 ∧ Klass.teacher_id existing ≠ User.id current_user)
      then (classes, Raise (HTTPException 403 "Not authorized to delete this class"))
      else
        let '(classes', deleted_count) :=
          Mongo.delete_one (class_has_id class_id) classes in
        if decide (deleted_count = 0)
        then (classes', Raise (HTTPException 404 "Class not found"))
        else (classes', Ok "Class deleted successfully")
  end.

(** ** Runs of the single-record route *)

(** One [POST /attendance] request. *)
Record MarkCall := {
  call_effects : Effects;
  call_user : User.t;
  call_input : AttendanceCreate.t
}.

Definition mark_call (attendance : list Attendance.t) (k : MarkCall) : list Attendance.t :=
  (mark_attendance (call_effects k) (call_user k) (call_input k) attendance).1.

(** The requests served one after the other. *)
Definition mark_all (calls : list MarkCall) (attendance : list Attendance.t)
    : list Attendance.t :=
  foldl mark_call attendance calls.

Definition call_for (s c d : string) (k : MarkCall) : Prop :=
  AttendanceCreate.student_id (call_input k) = s ∧
  AttendanceCreate.class_id (call_input k) = c ∧
  AttendanceCreate.date (call_input k) = d.

Global Instance call_for_dec s c d k : Decision (call_for s c d k).
Proof. unfold call_for. apply _. Defined.

Definition ids (attendance : list Attendance.t) : list string :=
  Attendance.id <$> attendance.

(** What a request does to the record of the triple [(s, c, d)], if any:
    a request for another triple leaves it alone, a request for this triple
    patches it or creates it. *)
Definition upsert (s c d : string) (o : option Attendance.t) (k : MarkCall)
    : option Attendance.t :=
  if decide (call_for s c d k) then
    Some match o with
         | Some r =>
             set_update (call_input k) (User.id (call_user k)) (now1 (call_effects k)) r
         | None =>
             new_attendance (call_effects k) (call_input k) (User.id (call_user k))
         end
  else o.

(** The last request of a non-empty sequence. *)
Definition last_call (first : MarkCall) (rest : list MarkCall) : MarkCall :=
  default first (last rest).

(** ** Sample data *)

Definition teacher_a : User.t :=
  User.mk "u-a" "a@school.test" "Asha" "teacher" "2024-01-01T08:00:00+00:00".
Definition teacher_b : User.t :=
  User.mk "u-b" "b@school.test" "Bela" "teacher" "2024-01-01T08:05:00+00:00".
Definition admin_z : User.t :=
  User.mk "u-z" "z@school.test" "Zed" "admin" "2024-01-01T08:10:00+00:00".

Definition effects_n (tag : string) : Effects :=
  {| uuid4 := "id-" +:+ tag; now1 := "t1-" +:+ tag; now2 := "t2-" +:+ tag |}.

(** Three requests: two for the same triple with another one in between. *)
Definition sample_calls : list MarkCall :=
  [ {| call_effects := effects_n "1"; call_user := teacher_a;
       call_input := AttendanceCreate.mk "s1" "c1" "2024-01-05" "present" None |};
    {| call_effects := effects_n "2"; call_user := teacher_a;
       call_input := AttendanceCreate.mk "s2" "c1" "2024-01-05" "absent" None |};
    {| call_effects := effects_n "3"; call_user := teacher_b;
       call_input := AttendanceCreate.mk "s1" "c1" "2024-01-05" "late" (Some "bus") |} ].

(** ** Vocabulary for the bulk route *)

(** An entry that carries what the route reads: a string under [student_id]
    and under [status], and under [remarks] nothing, null or a string. *)
Definition is_str (v : option json) : Prop :=
  match v with Some (JStr _) => True | _ => False end.

Definition is_optional_str (v : option json) : Prop :=
  match v with None | Some JNull | Some (JStr _) => True | _ => False end.

Definition well_formed (record : gmap string json) : Prop :=
  is_str (record !! "student_id") ∧ is_str (record !! "status")
  ∧ is_optional_str (record !! "remarks").

Global Instance is_str_dec v : Decision (is_str v).
Proof. destruct v as [[]|]; simpl; apply _. Defined.

Global Instance is_optional_str_dec v : Decision (is_optional_str v).
Proof. destruct v as [[]|]; simpl; apply _. Defined.

Global Instance well_formed_dec record : Decision (well_formed record).
Proof. unfold well_formed. apply _. Defined.

(** The action the route reports for a student when the collection is
    [attendance]. *)
Definition expected_action (attendance : list Attendance.t) (student_id class_id date : string)
    : string :=
  if decide (filter (same_triple student_id class_id date) attendance = [])
  then "created" else "updated".

Definition created (r : BulkResult.t) : Prop := BulkResult.action r = "created".

Global Instance created_dec r : Decision (created r).
Proof. unfold created. apply _. Defined.

(** The collection a bulk request leaves behind. *)
Definition bulk_store (env : nat → Effects) (current_user : User.t) (class_id date : string)
    (records : list (gmap string json)) (attendance : list Attendance.t)
    : list Attendance.t :=
  (mark_bulk_attendance env current_user
     (BulkAttendanceCreate.mk class_id date records) attendance).1.

(** A bulk request with the same student twice, and one whose third entry
    lacks [status]. *)
Definition sample_records : list (gmap string json) :=
  [ {[ "student_id" := JStr "s1"; "status" := JStr "present" ]};
    {[ "student_id" := JStr "s3"; "status" := JStr "absent"; "remarks" := JStr "sick" ]};
    {[ "student_id" := JStr "s1"; "status" := JStr "late"; "remarks" := JNull ]} ].

Definition sample_broken_records : list (gmap string json) :=
  [ {[ "student_id" := JStr "s1"; "status" := JStr "present" ]};
    {[ "student_id" := JStr "s3"; "status" := JStr "absent" ]};
    {[ "student_id" := JStr "s4" ]};
    {[ "student_id" := JStr "s5"; "status" := JStr "present" ]} ].

Definition sample_env (i : nat) : Effects := effects_n (pretty i).

(** ** Vocabulary for the report *)

(** The number of records of a student with a given status. *)
Definition count_status (records : list Attendance.t) (student_id status : string) : nat :=
  length (filter (λ r, Attendance.status r = status ∧ Attendance.student_id r = student_id)
            records).

(** [present / total_days * 100] rounded to two places, or the int [0]. *)
Definition percentage (present total_days : nat) : pynum :=
  if decide (total_days = 0) then PyInt 0
  else PyFloat (float_round2 (float_of_nat present / float_of_nat total_days * 100)%float).

(** The query of the report. *)
Definition report_query (class_id start_date end_date : string) : Query :=
  {| q_class_id := Some class_id; q_student_id := None;
     q_date := DateRange start_date end_date |}.

(** The entry the report computes for a student. *)
Definition stat_of (records : list Attendance.t) (student : Student.t) : StudentStat.t :=
  {| StudentStat.student_id := Student.id student;
     StudentStat.student_name := Student.name student;
     StudentStat.roll_number := Student.roll_number student;
     StudentStat.total_days := length (remove_dups (Attendance.date <$> records));
     StudentStat.present := count_status records (Student.id student) "present";
     StudentStat.absent := count_status records (Student.id student) "absent";
     StudentStat.late := count_status records (Student.id student) "late";
     StudentStat.attendance_percentage :=
       percentage (count_status records (Student.id student) "present")
                  (length (remove_dups (Attendance.date <$> records))) |}.

(** Students A and B of class c1 and a student of another class; A is
    present on three of five days and absent on two, B has no record. *)
Definition sample_students : list Student.t :=
  [ Student.mk "A" "Ana" "1" "c1" None None "2024-01-01T09:00:00+00:00";
    Student.mk "X" "Xia" "1" "c2" None None "2024-01-01T09:01:00+00:00";
    Student.mk "B" "Ben" "2" "c1" None None "2024-01-01T09:02:00+00:00" ].

Definition sample_attendance : list Attendance.t :=
  [ Attendance.mk "a1" "A" "c1" "2024-01-08" "present" "u-a" None "t" "t";
    Attendance.mk "a2" "A" "c1" "2024-01-09" "present" "u-a" None "t" "t";
    Attendance.mk "a3" "A" "c1" "2024-01-10" "absent" "u-a" None "t" "t";
    Attendance.mk "x1" "X" "c2" "2024-01-10" "late" "u-b" None "t" "t";
    Attendance.mk "a4" "A" "c1" "2024-01-11" "present" "u-a" None "t" "t";
    Attendance.mk "a5" "A" "c1" "2024-01-12" "absent" "u-a" None "t" "t";
    Attendance.mk "a6" "A" "c1" "2024-02-01" "present" "u-a" None "t" "t" ].

(** A class of 1001 students. *)
Definition big_class : list Student.t :=
  (λ n, Student.mk ("s" +:+ pretty n) "name" (pretty n) "c1" None None "t") <$> seq 0 1001.

(** 10001 records of class c1 on one date, one per student, as the marking
    routes store them. *)
Definition many_records : list Attendance.t :=
  (λ n, Attendance.mk ("r" +:+ pretty n) ("s" +:+ pretty n) "c1" "2024-01-05" "present"
          "u-a" None "2024-01-05T09:00:00+00:00" "2024-01-05T09:00:00+00:00")
    <$> seq 0 10001.

(** The student whose record is the last of [many_records]. *)
Definition last_student : Student.t :=
  Student.mk "s10000" "Zoe" "10000" "c1" None None "2024-01-01T09:00:00+00:00".

(** Three records of student A. *)
Definition iso_attendance : list Attendance.t :=
  [ Attendance.mk "i1" "A" "c1" "2024-01-08" "present" "u-a" None
      "2024-01-08T09:00:00+00:00" "2024-01-08T09:00:00+00:00";
    Attendance.mk "i2" "A" "c1" "2024-01-09" "absent" "u-a" None
      "2024-01-09T09:00:00+00:00" "2024-01-09T09:00:00+00:00";
    Attendance.mk "i3" "A" "c1" "2024-02-01" "present" "u-a" None
      "2024-02-01T09:00:00+00:00" "2024-02-01T09:00:00+00:00" ].

(** ** Rounding to two decimal places, stated on exact values *)

(** A finite float of mantissa [m] and exponent [e] has magnitude
    [m * 2^e]. The integer [n] is that magnitude in hundredths, rounded to
    the nearest integer, to the even one when two are as near:
    [|100 * m * 2^e - n| <= 1/2], cleared of denominators. *)
Definition nearest_hundredth (m : positive) (e : Z) (n : Z) : Prop :=
  let num := (100 * Z.pos m * 2 ^ Z.max e 0)%Z in
  let den := (2 ^ Z.max (- e) 0)%Z in
  (0 ≤ n)%Z
  ∧ (Z.abs (2 * num - 2 * n * den) ≤ den)%Z
  ∧ (Z.abs (2 * num - 2 * n * den) = den → Z.even n = true).

(** [f] is [x] rounded to two decimal places: the float nearest to [n / 100]
    for the nearest number of hundredths [n], with the sign of [x]; a zero,
    an infinity or a NaN is its own rounding. *)
Definition rounded_to_hundredths (x f : float) : Prop :=
  match Prim2SF x with
  | S754_finite s m e =>
      ∃ n : Z, nearest_hundredth m e n
        ∧ f = (if s then - (PrimFloat.of_uint63 (Uint63.of_Z n) / 100)
               else PrimFloat.of_uint63 (Uint63.of_Z n) / 100)%float
  | _ => f = x
  end.

(** Two classes, of teachers a and b. *)
Definition sample_classes : list Klass.t :=
  [ Klass.mk "c1" "Math" "A" None "u-a" "2024-01-01T10:00:00+00:00";
    Klass.mk "c2" "Art" "B" (Some "Drawing") "u-b" "2024-01-01T10:05:00+00:00" ].

Definition sample_class_input : ClassCreate.t :=
  ClassCreate.mk "Maths" "A1" (Some "Algebra").

(** A second mark for student A on a day already marked. *)
Definition sample_remark : AttendanceCreate.t :=
  AttendanceCreate.mk "A" "c1" "2024-01-08" "late" (Some "bus").

(** ** Vocabulary for the uniqueness invariant *)

(** The key of an attendance record. *)
Definition triple_of (r : Attendance.t) : string * string * string :=
  (Attendance.student_id r, Attendance.class_id r, Attendance.date r).

(** Ids are distinct and no two records share a triple. *)
Definition store_ok (attendance : list Attendance.t) : Prop :=
  NoDup (ids attendance) ∧ NoDup (triple_of <$> attendance).

(** The single-record requests a bulk request amounts to: one per entry, up
    to the first entry the route cannot read. *)
Fixpoint bulk_calls (env : nat → Effects) (i : nat) (current_user : User.t)
    (class_id date : string) (records : list (gmap string json)) : list MarkCall :=
  match records with
  | [] => []
  | record :: records' =>
      match attendance_create_of class_id date record with
      | Ok attendance_input =>
          {| call_effects := env i; call_user := current_user;
             call_input := attendance_input |}
          :: bulk_calls env (S i) current_user class_id date records'
      | Raise _ => []
      end
  end.

Global Instance str_le_dec a b : Decision (str_le a b).
Proof. unfold str_le. apply _. Defined.

(** ** Student routes *)

Module StudentCreate.
Record t := mk {
  name : string;
  roll_number : string;
  class_id : string;
  email : option string;
  phone : option string
}.
End StudentCreate.

Definition student_has_id (student_id : string) (s : Student.t) : Prop :=
  Student.id s = student_id.

Global Instance student_has_id_dec i s : Decision (student_has_id i s).
Proof. unfold student_has_id. apply _. Defined.

(** The filter on [roll_number] and [class_id]. *)
Definition same_roll (roll_number class_id : string) (s : Student.t) : Prop :=
  Student.roll_number s = roll_number ∧ Student.class_id s = class_id.

Global Instance same_roll_dec r c s : Decision (same_roll r c s).
Proof. unfold same_roll. apply _. Defined.

(** The [Student] built from the input: [id] and [created_at] come from
    their default factories. *)
Definition new_student (e : Effects) (inp : StudentCreate.t) : Student.t :=
  {| Student.id := uuid4 e;
     Student.name := StudentCreate.name inp;
     Student.roll_number := StudentCreate.roll_number inp;
     Student.class_id := StudentCreate.class_id inp;
     Student.email := StudentCreate.email inp;
     Student.phone := StudentCreate.phone inp;
     Student.created_at := now1 e |}.

(** [POST /students]. *)
Definition create_student (e : Effects) (student_input : StudentCreate.t)
    (students : list Student.t) : list Student.t * result Student.t :=
  match Mongo.find_one (same_roll (StudentCreate.roll_number student_input)
                          (StudentCreate.class_id student_input)) students with
  | Some existing =>
      (students, Raise (HTTPException 400 "Roll number already exists in this class"))
  | None =>
      let student := new_student e student_input in
      (Mongo.insert_one student students, Ok student)
  end.

(** The query dict of [get_students]: empty unless [class_id] is truthy. *)
Definition students_query (class_id : option string) (s : Student.t) : Prop :=
  field_matches (if truthy class_id then class_id else None) (Student.class_id s).

Global Instance students_query_dec c s : Decision (students_query c s).
Proof. unfold students_query. apply _. Defined.

(** [GET /students]. *)
Definition get_students (class_id : option string) (students : list Student.t)
    : list Student.t :=
  Mongo.find (students_query class_id) 1000 students.

(** [GET /students/{student_id}]. *)
Definition get_student (student_id : string) (students : list Student.t)
    : result Student.t :=
  match Mongo.find_one (student_has_id student_id) students with
  | None => Raise (HTTPException 404 "Student not found")
  | Some student => Ok student
  end.

(** The [$set] patch [student_input.model_dump()]. *)
Definition set_student (inp : StudentCreate.t) (doc : Student.t) : Student.t :=
  {| Student.id := Student.id doc;
     Student.name := StudentCreate.name inp;
     Student.roll_number := StudentCreate.roll_number inp;
     Student.class_id := StudentCreate.class_id inp;
     Student.email := StudentCreate.email inp;
     Student.phone := StudentCreate.phone inp;
     Student.created_at := Student.created_at doc |}.

(** [PUT /students/{student_id}]. *)
Definition update_student (student_id : string) (student_input : StudentCreate.t)
    (students : list Student.t) : list Student.t * result Student.t :=
  match Mongo.find_one (student_has_id student_id) students with
  | None => (students, Raise (HTTPException 404 "Student not found"))
  | Some existing =>
      let students' :=
        Mongo.update_one (student_has_id student_id) (set_student student_input) students in
      match Mongo.find_one (student_has_id student_id) students' with
      | Some updated => (students', Ok updated)
      | None => (students', Raise TypeError)   (* subscripting None *)
      end
  end.

(** [DELETE /students/{student_id}]. *)
Definition delete_student (student_id : string) (students : list Student.t)
    : list Student.t * result string :=
  let '(students', deleted_count) :=
    Mongo.delete_one (student_has_id student_id) students in
  if decide (deleted_count = 0)
  then (students', Raise (HTTPException 404 "Student not found"))
  else (students', Ok "Student deleted successfully").

(** The key [create_student] keeps unique. *)
Definition roll_key (s : Student.t) : string * string :=
  (Student.roll_number s, Student.class_id s).

Definition sample_student_input : StudentCreate.t :=
  StudentCreate.mk "Cy" "3" "c1" (Some "cy@school.test") None.

(** ** More class routes *)

(** The [Class] built from the input and the caller's id. *)
Definition new_class (e : Effects) (inp : ClassCreate.t) (teacher_id : string) : Klass.t :=
  {| Klass.id := uuid4 e;
     Klass.name := ClassCreate.name inp;
     Klass.section := ClassCreate.section inp;
     Klass.subject := ClassCreate.subject inp;
     Klass.teacher_id := teacher_id;
     Klass.created_at := now1 e |}.

(** [POST /classes]. *)
Definition create_class (e : Effects) (class_input : ClassCreate.t) (current_user : User.t)
    (classes : list Klass.t) : list Klass.t * result Klass.t :=
  let class_obj := new_class e class_input (User.id current_user) in
  (Mongo.insert_one class_obj classes, Ok class_obj).

(** The query dict of [get_classes]: empty for an admin, the caller's own
    classes otherwise. *)
Definition classes_query (current_user : User.t) (c : Klass.t) : Prop :=
  if decide (User.role current_user = "admin") then True
  else Klass.teacher_id c = User.id current_user.

Global Instance classes_query_dec u c : Decision (classes_query u c).
Proof. unfold classes_query. destruct (decide _); apply _. Defined.

(** [GET /classes]. *)
Definition get_classes (current_user : User.t) (classes : list Klass.t) : list Klass.t :=
  Mongo.find (classes_query current_user) 1000 classes.

(** [GET /classes/{class_id}]. *)
Definition get_class (class_id : string) (classes : list Klass.t) : result Klass.t :=
  match Mongo.find_one (class_has_id class_id) classes with
  | None => Raise (HTTPException 404 "Class not found")
  | Some class_doc => Ok class_doc
  end.

(** ** Registration and login *)

(** A document of the [users] collection: the [User] fields and the hashed
    password. *)
Module UserDoc.
Record t := mk {
  id : string;
  email : string;
  name : string;
  role : string;
  created_at : datetime;
  password : string
}.
End UserDoc.

Module UserCreate.
Record t := mk {
  email : string;
  password : string;
  name : string;
  role : string
}.
End UserCreate.

Module UserLogin.
Record t := mk {
  email : string;
  password : string
}.
End UserLogin.

Module Token.
Record t := mk {
  access_token : string;
  token_type : string;
  user : User.t
}.
End Token.

Definition has_email (email : string) (doc : UserDoc.t) : Prop := UserDoc.email doc = email.

Global Instance has_email_dec m d : Decision (has_email m d).
Proof. unfold has_email. apply _. Defined.

(** The [User] a stored document is read back as (the password is dropped). *)
Definition user_of_doc (doc : UserDoc.t) : User.t :=
  {| User.id := UserDoc.id doc;
     User.email := UserDoc.email doc;
     User.name := UserDoc.name doc;
     User.role := UserDoc.role doc;
     User.created_at := UserDoc.created_at doc |}.

Definition ACCESS_TOKEN_EXPIRE_MINUTES : nat := 60 * 24.

Section auth.
(** The library calls: [bcrypt.hashpw] on a password and a salt,
    [bcrypt.checkpw], [jwt.encode] of a payload under the configured key and
    algorithm, and a datetime plus a number of minutes. *)
Variable hashpw : string → string → string.
Variable checkpw : string → string → bool.
Variable jwt_encode : gmap string string → string.
Variable plus_minutes : datetime → nat → datetime.

(** [hash_password]; [salt] is what [bcrypt.gensalt()] returns. *)
Definition hash_password (salt password : string) : string := hashpw password salt.

Definition verify_password (plain_password hashed_password : string) : bool :=
  checkpw plain_password hashed_password.

(** [create_access_token]; [now] is the clock reading. *)
Definition create_access_token (now : datetime) (data : gmap string string) : string :=
  let expire := plus_minutes now ACCESS_TOKEN_EXPIRE_MINUTES in
  jwt_encode (<["exp" := expire]> data).

(** [POST /auth/register]. *)
Definition register (e : Effects) (salt : string) (user_input : UserCreate.t)
    (users : list UserDoc.t) : list UserDoc.t * result User.t :=
  match Mongo.find_one (has_email (UserCreate.email user_input)) users with
  | Some existing_user => (users, Raise (HTTPException 400 "Email already registered"))
  | None =>
      let hashed_pw := hash_password salt (UserCreate.password user_input) in
      let user :=
        {| User.id := uuid4 e;
           User.email := UserCreate.email user_input;
           User.name := UserCreate.name user_input;
           User.role := UserCreate.role user_input;
           User.created_at := now1 e |} in
      let doc :=
        {| UserDoc.id := User.id user;
           UserDoc.email := User.email user;
           UserDoc.name := User.name user;
           UserDoc.role := User.role user;
           UserDoc.created_at := User.created_at user;
           UserDoc.password := hashed_pw |} in
      (Mongo.insert_one doc users, Ok user)
  end.

(** [POST /auth/login]. *)
Definition login (e : Effects) (credentials : UserLogin.t) (users : list UserDoc.t)
    : result Token.t :=
  match Mongo.find_one (has_email (UserLogin.email credentials)) users with
  | None => Raise (HTTPException 401 "Invalid email or password")
  | Some user_doc =>
      if verify_password (UserLogin.password credentials) (UserDoc.password user_doc)
      then
        let access_token :=
          create_access_token (now1 e) {[ "sub" := UserDoc.id user_doc ]} in
        Ok (Token.mk access_token "bearer" (user_of_doc user_doc))
      else Raise (HTTPException 401 "Invalid email or password")
  end.
End auth.

(** Stand-ins for the library calls, to run the routes on examples. *)
Definition toy_hashpw (password salt : string) : string := salt +:+ "$" +:+ password.
Definition toy_checkpw (plain hashed : string) : bool :=
  bool_decide (hashed = "salt" +:+ "$" +:+ plain).
Definition toy_jwt_encode (payload : gmap string string) : string :=
  default "" (payload !! "sub") +:+ "." +:+ default "" (payload !! "exp").
Definition toy_plus_minutes (now : datetime) (minutes : nat) : datetime :=
  now +:+ "+" +:+ pretty minutes.

Definition sample_users : list UserDoc.t :=
  [ UserDoc.mk "u-a" "a@school.test" "Asha" "teacher" "2024-01-01T08:00:00+00:00"
      "salt$pw-a" ].

Definition sample_signup : UserCreate.t :=
  UserCreate.mk "m@school.test" "pw-m" "Mo" "admin".

(** ** Dashboard *)

Module DashboardStats.
Record t := mk {
  total_classes : nat;
  total_students : nat;
  today_attendance : nat;
  recent_attendance : list Attendance.t
}.
End DashboardStats.

(** [count_documents(q)]. *)
Definition count_documents {A} (P : A → Prop) `{!∀ x, Decision (P x)} (c : list A) : nat :=
  length (filter P c).

Definition dated (date : string) (r : Attendance.t) : Prop := Attendance.date r = date.

Global Instance dated_dec d r : Decision (dated d r).
Proof. unfold dated. apply _. Defined.

(** The order [sort("created_at", -1)] asks for: newer first. *)
Definition newer_first (a b : Attendance.t) : Prop :=
  str_le (Attendance.created_at b) (Attendance.created_at a).

Global Instance newer_first_dec a b : Decision (newer_first a b).
Proof. unfold newer_first. apply _. Defined.

Section dashboard.
(** The store's sort of a cursor by [created_at], descending; how it orders
    records of equal [created_at] is its own business. *)
Variable sort_created_at_desc : list Attendance.t → list Attendance.t.

(** [GET /dashboard/stats]; [today] is the clock reading formatted as a
    date. *)
Definition get_dashboard_stats (today : string) (current_user : User.t)
    (classes : list Klass.t) (students : list Student.t) (attendance : list Attendance.t)
    : DashboardStats.t :=
  let total_classes := count_documents (classes_query current_user) classes in
  let total_students := count_documents (λ _, True) students in
  let today_attendance := count_documents (dated today) attendance in
  let recent_attendance := take 10 (take 10 (sort_created_at_desc attendance)) in
  {| DashboardStats.total_classes := total_classes;
     DashboardStats.total_students := total_students;
     DashboardStats.today_attendance := today_attendance;
     DashboardStats.recent_attendance := recent_attendance |}.
End dashboard.

(** * Properties *)

Section mongo_facts.
Context {A : Type} (P : A → Prop) `{!∀ x, Decision (P x)}.

Lemma find_one_split c x :
  Mongo.find_one P c = Some x →
  ∃ l1 l2, c = l1 ++ x :: l2 ∧ Forall (λ y, ¬ P y) l1 ∧ P x.
Proof.
  unfold Mongo.find_one. induction c as [|y c IH]; intros Hf; [done|].
  rewrite filter_cons in Hf. destruct (decide (P y)) as [Hy|Hy].
  - simpl in Hf. injection Hf as ->. by exists [], c.
  - destruct (IH Hf) as (l1 & l2 & -> & Hl1 & Hx).
    exists (y :: l1), l2. split; [done|]. split; [by constructor|done].
Qed.

Lemma find_one_None c :
  Mongo.find_one P c = None ↔ filter P c = [].
Proof. unfold Mongo.find_one. by destruct (filter P c). Qed.

Lemma find_one_elem c x : Mongo.find_one P c = Some x → x ∈ c ∧ P x.
Proof.
  intros Hf. destruct (find_one_split _ _ Hf) as (l1 & l2 & -> & _ & Hx).
  split; [|done].
  apply elem_of_app. right. by left.
Qed.

Lemma update_one_split set l1 x l2 :
  Forall (λ y, ¬ P y) l1 → P x →
  Mongo.update_one P set (l1 ++ x :: l2) = l1 ++ set x :: l2.
Proof.
  intros Hl1 Hx. induction Hl1 as [|y l1 Hy _ IH]; simpl.
  - by rewrite decide_True.
  - by rewrite decide_False, IH.
Qed.

Lemma update_one_length set c : length (Mongo.update_one P set c) = length c.
Proof. induction c as [|y c IH]; simpl; [done|]. case_decide; simpl; by rewrite ?IH. Qed.
End mongo_facts.

Lemma option_list_nil {A} (o : option A) : option_list o = [] → o = None.
Proof. by destruct o. Qed.

Lemma ids_app a b : ids (a ++ b) = ids a ++ ids b.
Proof. unfold ids. apply fmap_app. Qed.

(** ** One request: it appends a fresh document or rewrites the matching one *)

Section one_call.
Variables (att : list Attendance.t) (k : MarkCall).

Let Tk := same_triple (AttendanceCreate.student_id (call_input k))
                      (AttendanceCreate.class_id (call_input k))
                      (AttendanceCreate.date (call_input k)).
Let created := new_attendance (call_effects k) (call_input k) (User.id (call_user k)).
Let patch := set_update (call_input k) (User.id (call_user k)) (now1 (call_effects k)).

Lemma mark_call_shape :
  NoDup (ids att) →
  (filter Tk att = [] ∧ mark_call att k = att ++ [created]) ∨
  (∃ l1 x l2, att = l1 ++ x :: l2 ∧ Forall (λ y, ¬ Tk y) l1 ∧ Tk x ∧
              mark_call att k = l1 ++ patch x :: l2).
Proof.
  intros Hnd. unfold mark_call, mark_attendance. fold Tk.
  destruct (Mongo.find_one Tk att) as [x|] eqn:Hf.
  - right. destruct (find_one_split _ _ _ Hf) as (l1 & l2 & -> & Hl1 & Hx).
    exists l1, x, l2. repeat (split; [done|]).
    assert (Forall (λ y, ¬ has_id (Attendance.id x) y) l1) as Hid.
    { rewrite ids_app in Hnd. apply NoDup_app in Hnd as (_ & Hdisj & _).
      apply Forall_forall. intros y Hy Heq. apply (Hdisj (Attendance.id y)).
      - unfold ids. by apply list_elem_of_fmap_2.
      - rewrite Heq. simpl. left. }
    rewrite (update_one_split _ _ _ _ _ Hid) by done.
    by destruct (Mongo.find_one (has_id _) _).
  - left. split; [by apply find_one_None|done].
Qed.
End one_call.

Lemma same_triple_patch s c d inp by_ at_ r :
  same_triple s c d (set_update inp by_ at_ r) ↔
  AttendanceCreate.student_id inp = s ∧ AttendanceCreate.class_id inp = c
  ∧ AttendanceCreate.date inp = d.
Proof. done. Qed.

Lemma same_triple_created s c d e inp by_ :
  same_triple s c d (new_attendance e inp by_) ↔
  AttendanceCreate.student_id inp = s ∧ AttendanceCreate.class_id inp = c
  ∧ AttendanceCreate.date inp = d.
Proof. done. Qed.

(** A request keeps the ids distinct, adds at most its own fresh id, and acts
    on the records of a triple as [upsert] says. *)
Lemma mark_call_view s c d att k o :
  NoDup (ids att) →
  uuid4 (call_effects k) ∉ ids att →
  filter (same_triple s c d) att = option_list o →
  NoDup (ids (mark_call att k))
  ∧ (∀ i, i ∈ ids (mark_call att k) → i = uuid4 (call_effects k) ∨ i ∈ ids att)
  ∧ filter (same_triple s c d) (mark_call att k) = option_list (upsert s c d o k).
Proof.
  intros Hnd Hfresh Hview.
  destruct (mark_call_shape att k Hnd) as [[Hnone ->]|(l1 & x & l2 & -> & Hl1 & Hx & ->)].
  - split; [|split].
    + rewrite ids_app. apply NoDup_app. split; [done|]. split.
      * intros i Hi [->|[]%elem_of_nil]%elem_of_cons. by apply Hfresh.
      * apply NoDup_singleton.
    + intros i. rewrite ids_app, elem_of_app. intros [Hi|Hi]; [by right|left].
      by apply list_elem_of_singleton in Hi.
    + rewrite filter_app, Hview. unfold upsert.
      destruct (decide (call_for s c d k)) as [Hk|Hk].
      * rewrite filter_cons_True by (by apply same_triple_created).
        destruct Hk as (<- & <- & <-). rewrite Hnone in Hview.
        symmetry in Hview. apply option_list_nil in Hview as ->. done.
      * rewrite filter_cons_False by (by rewrite same_triple_created).
        rewrite filter_nil. by rewrite app_nil_r.
  - assert (ids (l1 ++ set_update (call_input k) (User.id (call_user k))
                         (now1 (call_effects k)) x :: l2) = ids (l1 ++ x :: l2)) as Hids.
    { by rewrite !ids_app. }
    split; [by rewrite Hids|]. split; [intros i; rewrite Hids; by right|].
    rewrite filter_app, filter_cons in Hview. rewrite filter_app, filter_cons.
    unfold upsert. destruct (decide (call_for s c d k)) as [Hk|Hk].
    + rewrite decide_True by (by apply same_triple_patch).
      destruct Hk as (<- & <- & <-).
      rewrite decide_True in Hview by done.
      assert (filter (same_triple (AttendanceCreate.student_id (call_input k))
                (AttendanceCreate.class_id (call_input k))
                (AttendanceCreate.date (call_input k))) l1 = []) as Hl1'.
      { clear -Hl1. induction Hl1 as [|y l1 Hy _ IH]; [done|].
        by rewrite filter_cons_False. }
      rewrite Hl1' in *. simpl in *. destruct o as [r|]; [|done].
      simpl in Hview. by injection Hview as -> ->.
    + rewrite decide_False by (by rewrite same_triple_patch).
      rewrite decide_False in Hview; [done|].
      intros Hx'. apply Hk. destruct Hx as (? & ? & ?), Hx' as (? & ? & ?).
      unfold call_for. by repeat split; congruence.
Qed.

(** ** Sequences of requests *)

Lemma mark_all_view s c d calls : ∀ att o,
  NoDup (ids att) →
  NoDup (uuid4 ∘ call_effects <$> calls) →
  (∀ k, k ∈ calls → uuid4 (call_effects k) ∉ ids att) →
  filter (same_triple s c d) att = option_list o →
  NoDup (ids (mark_all calls att))
  ∧ filter (same_triple s c d) (mark_all calls att)
    = option_list (foldl (upsert s c d) o calls).
Proof.
  induction calls as [|k calls IH]; intros att o Hnd Huu Hfresh Hview; [done|].
  rewrite fmap_cons in Huu. apply NoDup_cons in Huu as [Hk Huu].
  destruct (mark_call_view s c d att k o Hnd) as (Hnd' & Hsub & Hview');
    [apply Hfresh; left|done|].
  simpl. apply IH; [done..| |done].
  intros k' Hk' Hin. destruct (Hsub _ Hin) as [Heq|Hold].
  - apply Hk. change ((uuid4 ∘ call_effects) k) with (uuid4 (call_effects k)).
    rewrite <- Heq. by apply (list_elem_of_fmap_2 (uuid4 ∘ call_effects)).
  - apply (Hfresh k'); [by right|done].
Qed.

(** Only the requests for the triple matter to its record. *)
Lemma upsert_fold_filter s c d calls : ∀ o,
  foldl (upsert s c d) o calls
  = foldl (upsert s c d) o (filter (call_for s c d) calls).
Proof.
  induction calls as [|k calls IH]; intros o; [done|].
  rewrite filter_cons. simpl. unfold upsert at 2.
  destruct (decide (call_for s c d k)) as [Hk|Hk]; [|apply IH].
  simpl. rewrite IH. f_equal. unfold upsert. by rewrite decide_True.
Qed.

(** Patching keeps [id] and [created_at] and leaves the fields of the last
    request. *)
Lemma upsert_fold_fields s c d rest :
  Forall (call_for s c d) rest → ∀ r,
  ∃ r', foldl (upsert s c d) (Some r) rest = Some r'
    ∧ Attendance.id r' = Attendance.id r
    ∧ Attendance.created_at r' = Attendance.created_at r
    ∧ match last rest with
      | None => r' = r
      | Some k =>
          Attendance.status r' = AttendanceCreate.status (call_input k)
          ∧ Attendance.remarks r' = AttendanceCreate.remarks (call_input k)
          ∧ Attendance.marked_by r' = User.id (call_user k)
      end.
Proof.
  induction 1 as [|k rest Hk _ IH]; intros r; [by exists r|].
  simpl. unfold upsert at 2. rewrite decide_True by done.
  destruct (IH (set_update (call_input k) (User.id (call_user k))
                  (now1 (call_effects k)) r)) as (r' & -> & Hid & Hcr & Hlast).
  exists r'. split; [done|]. split; [done|]. split; [done|].
  rewrite last_cons. destruct (last rest); [done|]. by subst r'.
Qed.

(** C1. Requests are served one after the other, starting from a collection
    whose ids are distinct and that holds no record of the triple
    [(s, c, d)]; every request draws a [uuid4()] no earlier request drew and
    no stored record has. If at least one request is for the triple, then
    afterwards exactly one record has the triple; its [status], [remarks] and
    [marked_by] are those of the last request for the triple, and its [id]
    and [created_at] are the ones the first request for the triple
    produced. Requests for other triples may come in between. *)
Theorem mark_attendance_one_record_per_triple
    (s c d : string) (att0 : list Attendance.t) (calls : list MarkCall)
    (first : MarkCall) (rest : list MarkCall) :
  NoDup (ids att0) →
  filter (same_triple s c d) att0 = [] →
  NoDup (uuid4 ∘ call_effects <$> calls) →
  (∀ k, k ∈ calls → uuid4 (call_effects k) ∉ ids att0) →
  filter (call_for s c d) calls = first :: rest →
  ∃ r, filter (same_triple s c d) (mark_all calls att0) = [r]
    ∧ Attendance.status r = AttendanceCreate.status (call_input (last_call first rest))
    ∧ Attendance.remarks r = AttendanceCreate.remarks (call_input (last_call first rest))
    ∧ Attendance.marked_by r = User.id (call_user (last_call first rest))
    ∧ Attendance.id r = uuid4 (call_effects first)
    ∧ Attendance.created_at r = now1 (call_effects first).
Proof.
  intros Hnd Hfree Huu Hfresh Hcalls.
  destruct (mark_all_view s c d calls att0 None Hnd Huu Hfresh Hfree) as [_ Hview].
  rewrite upsert_fold_filter, Hcalls in Hview.
  assert (Forall (call_for s c d) (first :: rest)) as Hall.
  { rewrite <- Hcalls. apply Forall_forall. intros k Hk.
    by apply list_elem_of_filter in Hk as [? _]. }
  apply Forall_cons in Hall as [Hfirst Hrest].
  simpl in Hview. unfold upsert at 2 in Hview. rewrite decide_True in Hview by done.
  destruct (upsert_fold_fields s c d rest Hrest
              (new_attendance (call_effects first) (call_input first)
                 (User.id (call_user first)))) as (r & Hr & Hid & Hcr & Hlast).
  rewrite Hr in Hview. exists r. split; [done|].
  unfold last_call. destruct (last rest) as [k|]; simpl.
  - destruct Hlast as (? & ? & ?). by repeat split.
  - subst r. by repeat split.
Qed.

Example sample_calls_run :
  mark_all sample_calls []
  = [ Attendance.mk "id-1" "s1" "c1" "2024-01-05" "late" "u-b" (Some "bus") "t1-1" "t1-3";
      Attendance.mk "id-2" "s2" "c1" "2024-01-05" "absent" "u-a" None "t1-2" "t2-2" ].
Proof. vm_compute. reflexivity. Qed.

Lemma mark_attendance_one_record_per_triple_witness :
  ∃ r, filter (same_triple "s1" "c1" "2024-01-05") (mark_all sample_calls []) = [r]
    ∧ Attendance.status r = "late"
    ∧ Attendance.remarks r = Some "bus"
    ∧ Attendance.marked_by r = "u-b"
    ∧ Attendance.id r = "id-1"
    ∧ Attendance.created_at r = "t1-1".
Proof.
  apply (mark_attendance_one_record_per_triple "s1" "c1" "2024-01-05" [] sample_calls
           {| call_effects := effects_n "1"; call_user := teacher_a;
              call_input := AttendanceCreate.mk "s1" "c1" "2024-01-05" "present" None |}
           [ {| call_effects := effects_n "3"; call_user := teacher_b;
                call_input :=
                  AttendanceCreate.mk "s1" "c1" "2024-01-05" "late" (Some "bus") |} ]).
  - apply NoDup_nil_2.
  - reflexivity.
  - apply (bool_decide_unpack _). vm_compute. exact I.
  - intros k _ Hin. by apply elem_of_nil in Hin.
  - vm_compute. reflexivity.
Defined.

(** ** The bulk loop *)

Lemma attendance_create_of_well_formed c d record :
  well_formed record →
  ∃ sid st, record !! "student_id" = Some (JStr sid)
    ∧ attendance_create_of c d record
      = Ok (AttendanceCreate.mk sid c d st
              match dict_get record "remarks" with JStr s => Some s | _ => None end).
Proof.
  unfold well_formed, attendance_create_of, subscript, dict_get.
  intros (Hs & Ht & Hr).
  destruct (record !! "student_id") as [[| | |sid]|]; try done.
  destruct (record !! "status") as [[| | |st]|]; try done.
  exists sid, st. split; [done|].
  by destruct (record !! "remarks") as [[| | |rem]|].
Qed.

Lemma attendance_create_of_ill_formed c d record :
  ¬ well_formed record →
  ∃ exc, attendance_create_of c d record = Raise exc
    ∧ ((∃ key, exc = KeyError key) ∨ (∃ field, exc = ValidationError field)).
Proof.
  unfold well_formed, attendance_create_of, subscript, dict_get.
  intros Hwf.
  destruct (record !! "student_id") as [v1|]; simpl; [|by eauto].
  destruct (record !! "status") as [v2|]; simpl; [|by eauto].
  destruct v1 as [| | |sid]; simpl; try by eauto.
  destruct v2 as [| | |st]; simpl; try by eauto.
  destruct (record !! "remarks") as [[| | |rem]|]; simpl; try by eauto.
  all: exfalso; by apply Hwf.
Qed.

Lemma bulk_loop_exception env c d u records : ∀ i att res exc,
  (bulk_loop env i u c d records att res).2 = Raise exc →
  (∃ key, exc = KeyError key) ∨ (∃ field, exc = ValidationError field).
Proof.
  induction records as [|record records IH]; intros i att res exc; simpl; [done|].
  destruct (decide (well_formed record)) as [Hwf|Hwf].
  - destruct (attendance_create_of_well_formed c d record Hwf) as (sid & st & _ & ->).
    destruct (Mongo.find_one _ att); apply IH.
  - destruct (attendance_create_of_ill_formed c d record Hwf) as (exc' & -> & Hexc).
    simpl. by intros [= <-].
Qed.

(** The results collected so far are only extended. *)
Lemma bulk_loop_results env c d u records : ∀ i att res,
  bulk_loop env i u c d records att res
  = ((bulk_loop env i u c d records att []).1,
     match (bulk_loop env i u c d records att []).2 with
     | Ok out => Ok (res ++ out)
     | Raise exc => Raise exc
     end).
Proof.
  induction records as [|record records IH]; intros i att res; simpl.
  { by rewrite app_nil_r. }
  destruct (attendance_create_of c d record) as [inp|exc]; [|done].
  destruct (Mongo.find_one _ att).
  all: rewrite IH; rewrite (IH _ _ [_]); simpl.
  all: destruct (bulk_loop env (S i) u c d records _ []) as [att' [out|exc]]; simpl.
  all: by rewrite <- ?app_assoc.
Qed.

(** Processing [l1 ++ l2] is processing [l1], then [l2] from where [l1]
    left the collection, unless [l1] raised. *)
Lemma bulk_loop_app env c d u l1 l2 : ∀ i att res,
  bulk_loop env i u c d (l1 ++ l2) att res
  = match bulk_loop env i u c d l1 att res with
    | (att1, Ok res1) => bulk_loop env (i + length l1) u c d l2 att1 res1
    | (att1, Raise exc) => (att1, Raise exc)
    end.
Proof.
  induction l1 as [|record l1 IH]; intros i att res; simpl.
  { by rewrite Nat.add_0_r. }
  destruct (attendance_create_of c d record) as [inp|exc]; [|done].
  destruct (Mongo.find_one _ att); rewrite IH; by rewrite Nat.add_succ_r.
Qed.

(** On well-formed entries the loop runs to its end: one result per entry,
    and one more document per entry reported as created. *)
Lemma bulk_loop_well_formed env c d u records :
  Forall well_formed records → ∀ i att,
  ∃ att' out, bulk_loop env i u c d records att [] = (att', Ok out)
    ∧ length out = length records
    ∧ length att' = length att + length (filter created out).
Proof.
  induction 1 as [|record records Hwf _ IH]; intros i att; simpl.
  { exists att, []. by rewrite Nat.add_0_r. }
  destruct (attendance_create_of_well_formed c d record Hwf) as (sid & st & _ & ->).
  destruct (Mongo.find_one _ att) as [existing|]; rewrite bulk_loop_results.
  - destruct (IH (S i) (Mongo.update_one (has_id (Attendance.id existing))
        (set_update (AttendanceCreate.mk sid c d st
           match dict_get record "remarks" with JStr s => Some s | _ => None end)
           (User.id u) (now1 (env i))) att)) as (att' & out & -> & Hlen & Hatt).
    eexists _, _. split; [done|]. simpl. split; [by rewrite Hlen|].
    rewrite filter_cons_False by done. by rewrite Hatt, update_one_length.
  - destruct (IH (S i) (Mongo.insert_one (new_attendance (env i)
        (AttendanceCreate.mk sid c d st
           match dict_get record "remarks" with JStr s => Some s | _ => None end)
        (User.id u)) att)) as (att' & out & -> & Hlen & Hatt).
    eexists _, _. split; [done|]. simpl. split; [by rewrite Hlen|].
    rewrite Hatt. unfold Mongo.insert_one.
    rewrite length_app. simpl. lia.
Qed.

Lemma find_one_expected_action att sid c d :
  expected_action att sid c d
  = match Mongo.find_one (same_triple sid c d) att with
    | Some _ => "updated"
    | None => "created"
    end.
Proof.
  unfold expected_action, Mongo.find_one.
  by destruct (filter (same_triple sid c d) att).
Qed.

(** The result at position [j] names the student of entry [j] and tells
    whether the triple was there when the entries before it had been
    processed. *)
Lemma bulk_loop_nth env c d u records att j record :
  Forall well_formed records →
  records !! j = Some record →
  ∃ sid out, record !! "student_id" = Some (JStr sid)
    ∧ (bulk_loop env 0 u c d records att []).2 = Ok out
    ∧ out !! j
      = Some (BulkResult.mk sid
                (expected_action (bulk_loop env 0 u c d (take j records) att []).1 sid c d)).
Proof.
  intros Hwf Hj.
  assert (Forall well_formed (take j records)) as Hwf1 by by apply Forall_take.
  assert (Forall well_formed (drop (S j) records)) as Hwf2 by by apply Forall_drop.
  assert (well_formed record) as Hwfr.
  { eapply Forall_lookup_1; [exact Hwf|exact Hj]. }
  assert (bulk_loop env 0 u c d records att []
          = bulk_loop env 0 u c d (take j records ++ record :: drop (S j) records) att [])
    as -> by (by rewrite take_drop_middle).
  rewrite bulk_loop_app.
  destruct (bulk_loop_well_formed env c d u _ Hwf1 0 att) as (att1 & out1 & -> & Hlen1 & _).
  simpl.
  destruct (attendance_create_of_well_formed c d record Hwfr) as (sid & st & Hsid & ->).
  exists sid. rewrite find_one_expected_action. simpl.
  assert (length out1 = j) as Hout1.
  { rewrite Hlen1, length_take. apply lookup_lt_Some in Hj. lia. }
  destruct (Mongo.find_one (same_triple sid c d) att1) as [existing|];
    rewrite bulk_loop_results;
    match goal with
    | |- context [bulk_loop env ?i u c d (drop (S j) records) ?a []] =>
        destruct (bulk_loop_well_formed env c d u _ Hwf2 i a) as (att2 & out2 & -> & _ & _)
    end; simpl; eexists; (split; [done|]); (split; [done|]);
    rewrite <- app_assoc; simpl; rewrite <- Hout1; apply list_lookup_middle; done.
Qed.

(** C5. On a list of [N] well-formed entries the bulk route answers with
    [N] results in input order: result [j] names the student of entry [j],
    and its action is [created] when the collection held no record of that
    student, class and date once the entries before [j] had been processed,
    and [updated] otherwise. An empty list gives an empty result list. *)
Theorem mark_bulk_attendance_results
    (env : nat → Effects) (u : User.t) (c d : string)
    (records : list (gmap string json)) (att : list Attendance.t) :
  Forall well_formed records →
  ∃ results,
    (mark_bulk_attendance env u (BulkAttendanceCreate.mk c d records) att).2
    = Ok (BulkResponse.mk "Bulk attendance marked successfully" results)
    ∧ length results = length records
    ∧ (∀ j record, records !! j = Some record →
        ∃ sid, record !! "student_id" = Some (JStr sid)
          ∧ results !! j
            = Some (BulkResult.mk sid
                      (expected_action (bulk_store env u c d (take j records) att) sid c d)))
    ∧ (records = [] → results = []).
Proof.
  intros Hwf. unfold bulk_store, mark_bulk_attendance. simpl.
  destruct (bulk_loop_well_formed env c d u records Hwf 0 att)
    as (att' & results & Hrun & Hlen & _).
  exists results. rewrite Hrun. simpl. split; [done|]. split; [done|]. split.
  - intros j record Hj.
    destruct (bulk_loop_nth env c d u records att j record Hwf Hj)
      as (sid & out & Hsid & Hout & Hnth).
    rewrite Hrun in Hout. simpl in Hout. injection Hout as <-.
    exists sid. split; [done|]. rewrite Hnth.
    by destruct (bulk_loop env 0 u c d (take j records) att []).
  - intros ->. by destruct results.
Qed.

Example sample_records_run :
  mark_bulk_attendance sample_env teacher_a
    (BulkAttendanceCreate.mk "c1" "2024-01-05" sample_records) []
  = ([ Attendance.mk "id-0" "s1" "c1" "2024-01-05" "late" "u-a" None "t1-0" "t1-2";
       Attendance.mk "id-1" "s3" "c1" "2024-01-05" "absent" "u-a" (Some "sick")
         "t1-1" "t2-1" ],
     Ok (BulkResponse.mk "Bulk attendance marked successfully"
           [ BulkResult.mk "s1" "created"; BulkResult.mk "s3" "created";
             BulkResult.mk "s1" "updated" ])).
Proof. vm_compute. reflexivity. Qed.

Lemma mark_bulk_attendance_results_witness :
  ∃ results,
    (mark_bulk_attendance sample_env teacher_a
       (BulkAttendanceCreate.mk "c1" "2024-01-05" sample_records) []).2
    = Ok (BulkResponse.mk "Bulk attendance marked successfully" results)
    ∧ length results = length sample_records
    ∧ (∀ j record, sample_records !! j = Some record →
        ∃ sid, record !! "student_id" = Some (JStr sid)
          ∧ results !! j
            = Some (BulkResult.mk sid
                      (expected_action
                         (bulk_store sample_env teacher_a "c1" "2024-01-05"
                            (take j sample_records) []) sid "c1" "2024-01-05")))
    ∧ (sample_records = [] → results = []).
Proof.
  apply (mark_bulk_attendance_results sample_env teacher_a "c1" "2024-01-05"
           sample_records []).
  apply (bool_decide_unpack _). vm_compute. exact I.
Defined.

(** C9. When the entry after a run of well-formed entries is malformed, the
    bulk route raises, and the collection is left exactly as processing the
    well-formed entries before it made it: nothing is rolled back. *)
Theorem mark_bulk_attendance_not_atomic
    (env : nat → Effects) (u : User.t) (c d : string)
    (good : list (gmap string json)) (bad : gmap string json)
    (rest : list (gmap string json)) (att : list Attendance.t) :
  Forall well_formed good →
  ¬ well_formed bad →
  ∃ exc,
    mark_bulk_attendance env u (BulkAttendanceCreate.mk c d (good ++ bad :: rest)) att
    = (bulk_store env u c d good att, Raise exc)
    ∧ is_ok (mark_bulk_attendance env u (BulkAttendanceCreate.mk c d good) att).2.
Proof.
  intros Hgood Hbad. unfold bulk_store, mark_bulk_attendance. simpl.
  rewrite bulk_loop_app.
  destruct (bulk_loop_well_formed env c d u good Hgood 0 att) as (att1 & out1 & -> & _ & _).
  simpl.
  destruct (attendance_create_of_ill_formed c d bad Hbad) as (exc & -> & _).
  by exists exc.
Qed.

Example sample_broken_records_run :
  mark_bulk_attendance sample_env teacher_a
    (BulkAttendanceCreate.mk "c1" "2024-01-05" sample_broken_records) []
  = ([ Attendance.mk "id-0" "s1" "c1" "2024-01-05" "present" "u-a" None "t1-0" "t2-0";
       Attendance.mk "id-1" "s3" "c1" "2024-01-05" "absent" "u-a" None "t1-1" "t2-1" ],
     Raise (KeyError "status")).
Proof. vm_compute. reflexivity. Qed.

Lemma mark_bulk_attendance_not_atomic_witness :
  ∃ exc,
    mark_bulk_attendance sample_env teacher_a
      (BulkAttendanceCreate.mk "c1" "2024-01-05" sample_broken_records) []
    = (bulk_store sample_env teacher_a "c1" "2024-01-05" (take 2 sample_broken_records) [],
       Raise exc)
    ∧ is_ok (mark_bulk_attendance sample_env teacher_a
               (BulkAttendanceCreate.mk "c1" "2024-01-05" (take 2 sample_broken_records))
               []).2.
Proof.
  apply (mark_bulk_attendance_not_atomic sample_env teacher_a "c1" "2024-01-05"
           (take 2 sample_broken_records) {[ "student_id" := JStr "s4" ]}
           [ {[ "student_id" := JStr "s5"; "status" := JStr "present" ]} ] []).
  - apply (bool_decide_unpack _). vm_compute. exact I.
  - apply (bool_decide_unpack _). vm_compute. exact I.
Defined.

(** ** Marking a triple that is already there *)

Lemma update_one_find {A} (P : A → Prop) `{!∀ x, Decision (P x)} (set : A → A) c :
  (∀ x, P x → P (set x)) →
  Mongo.find_one P (Mongo.update_one P set c) = set <$> Mongo.find_one P c.
Proof.
  intros Hset. unfold Mongo.find_one.
  induction c as [|y c IH]; simpl; [done|].
  destruct (decide (P y)) as [Hy|Hy].
  - rewrite (filter_cons_True P y) by done.
    by rewrite filter_cons_True by by apply Hset.
  - by rewrite !(filter_cons_False P y).
Qed.

Lemma update_one_found {A} (P : A → Prop) `{!∀ x, Decision (P x)} (set : A → A) c y :
  (∀ x, P x → P (set x)) →
  Mongo.find_one P c = Some y →
  set y ∈ Mongo.update_one P set c.
Proof.
  intros Hset Hy. apply (find_one_elem P).
  rewrite update_one_find by done. by rewrite Hy.
Qed.

Lemma update_by_id_stored att existing (f : Attendance.t → Attendance.t) :
  existing ∈ att →
  (∀ x, Attendance.id (f x) = Attendance.id x) →
  ∃ y, Attendance.id y = Attendance.id existing
    ∧ f y ∈ Mongo.update_one (has_id (Attendance.id existing)) f att.
Proof.
  intros Hin Hf.
  destruct (Mongo.find_one (has_id (Attendance.id existing)) att) as [y|] eqn:Hy.
  - exists y. split; [by apply find_one_elem in Hy as [_ Hy]|].
    apply update_one_found; [|done]. unfold has_id. intros x. by rewrite Hf.
  - apply find_one_None in Hy.
    assert (existing ∈ filter (has_id (Attendance.id existing)) att) as Hin'.
    { by apply list_elem_of_filter. }
    rewrite Hy in Hin'. by apply elem_of_nil in Hin'.
Qed.

Lemma mark_attendance_existing e u inp att existing :
  Mongo.find_one (same_triple (AttendanceCreate.student_id inp)
                    (AttendanceCreate.class_id inp) (AttendanceCreate.date inp)) att
  = Some existing →
  ∃ y, Mongo.find_one (has_id (Attendance.id existing)) att = Some y
    ∧ mark_attendance e u inp att
      = (Mongo.update_one (has_id (Attendance.id existing))
           (set_update inp (User.id u) (now1 e)) att,
         Ok (set_update inp (User.id u) (now1 e) y)).
Proof.
  intros Hf. unfold mark_attendance. rewrite Hf.
  rewrite update_one_find by done.
  destruct (Mongo.find_one (has_id (Attendance.id existing)) att) as [y|] eqn:Hy.
  - by exists y.
  - apply find_one_None in Hy. apply find_one_elem in Hf as [Hin _].
    assert (existing ∈ filter (has_id (Attendance.id existing)) att) as Hin'.
    { by apply list_elem_of_filter. }
    rewrite Hy in Hin'. by apply elem_of_nil in Hin'.
Qed.

Lemma bulk_store_snoc env u c d records record att :
  Forall well_formed records →
  bulk_store env u c d (records ++ [record]) att
  = (bulk_loop env (length records) u c d [record] (bulk_store env u c d records att) []).1.
Proof.
  intros Hwf. unfold bulk_store, mark_bulk_attendance. simpl.
  rewrite bulk_loop_app.
  destruct (bulk_loop_well_formed env c d u records Hwf 0 att) as (att1 & out1 & -> & _ & _).
  simpl. destruct (attendance_create_of c d record); [|done].
  by destruct (Mongo.find_one _ att1).
Qed.

(** C8. Marking never answers with an HTTP error, and a mark for a triple
    that already has a record overwrites that record. The single-record
    route always returns a record; when the triple is there, the collection
    keeps its length and the returned record, now stored, has the id of the
    record found and the fields of the request. The bulk route never raises an
    HTTPException; on well-formed entries it answers, the collection grows
    only by the entries reported as created, and an entry whose triple is
    there when its turn comes leaves the length unchanged and its status and
    marker in a stored record of that triple. *)
Theorem duplicate_mark_is_upsert
    (e : Effects) (env : nat → Effects) (u : User.t) (inp : AttendanceCreate.t)
    (c d : string) (records : list (gmap string json)) (att : list Attendance.t) :
  (∃ r, (mark_attendance e u inp att).2 = Ok r)
  ∧ (∀ existing,
       Mongo.find_one (same_triple (AttendanceCreate.student_id inp)
                         (AttendanceCreate.class_id inp) (AttendanceCreate.date inp)) att
       = Some existing →
       length (mark_attendance e u inp att).1 = length att
       ∧ ∃ r, (mark_attendance e u inp att).2 = Ok r
           ∧ r ∈ (mark_attendance e u inp att).1
           ∧ Attendance.id r = Attendance.id existing
           ∧ same_triple (AttendanceCreate.student_id inp) (AttendanceCreate.class_id inp)
               (AttendanceCreate.date inp) r
           ∧ Attendance.status r = AttendanceCreate.status inp
           ∧ Attendance.remarks r = AttendanceCreate.remarks inp
           ∧ Attendance.marked_by r = User.id u)
  ∧ (∀ code detail,
       (mark_bulk_attendance env u (BulkAttendanceCreate.mk c d records) att).2
       ≠ Raise (HTTPException code detail))
  ∧ (Forall well_formed records →
       (∃ resp,
          (mark_bulk_attendance env u (BulkAttendanceCreate.mk c d records) att).2 = Ok resp
          ∧ length (bulk_store env u c d records att)
            = length att + length (filter created (BulkResponse.results resp)))
       ∧ ∀ j record sid st existing,
           records !! j = Some record →
           record !! "student_id" = Some (JStr sid) →
           record !! "status" = Some (JStr st) →
           Mongo.find_one (same_triple sid c d)
             (bulk_store env u c d (take j records) att) = Some existing →
           length (bulk_store env u c d (take (S j) records) att)
           = length (bulk_store env u c d (take j records) att)
           ∧ ∃ r, r ∈ bulk_store env u c d (take (S j) records) att
               ∧ Attendance.id r = Attendance.id existing
               ∧ same_triple sid c d r
               ∧ Attendance.status r = st
               ∧ Attendance.marked_by r = User.id u).
Proof.
  split; [|split; [|split]].
  - unfold mark_attendance.
    destruct (Mongo.find_one _ att) as [existing|] eqn:Hf; [|by eexists].
    destruct (mark_attendance_existing e u inp att existing Hf) as (y & _ & Hm).
    unfold mark_attendance in Hm. rewrite Hf in Hm. rewrite Hm. by eexists.
  - intros existing Hf.
    destruct (mark_attendance_existing e u inp att existing Hf) as (y & Hy & ->).
    simpl. split; [apply update_one_length|].
    eexists. split; [done|]. split.
    + by apply update_one_found.
    + apply find_one_elem in Hy as [_ Hy]. by repeat split.
  - intros code detail Hraise. unfold mark_bulk_attendance in Hraise. simpl in Hraise.
    destruct (bulk_loop env 0 u c d records att []) as [att' [out|exc]] eqn:Hrun;
      simpl in Hraise; [done|].
    injection Hraise as ->.
    destruct (bulk_loop_exception env c d u records 0 att [] (HTTPException code detail))
      as [[? ?]|[? ?]]; [by rewrite Hrun|done..].
  - intros Hwf. split.
    + unfold bulk_store, mark_bulk_attendance. simpl.
      destruct (bulk_loop_well_formed env c d u records Hwf 0 att)
        as (att' & out & -> & _ & Hlen).
      simpl. by eexists.
    + intros j record sid st existing Hj Hsid Hst Hf.
      rewrite (take_S_r records j record Hj).
      rewrite bulk_store_snoc by by apply Forall_take.
      set (before := bulk_store env u c d (take j records) att) in *.
      simpl. unfold attendance_create_of, subscript. rewrite Hsid, Hst. simpl.
      assert (well_formed record) as (_ & _ & Hrem).
      { eapply Forall_lookup_1; [exact Hwf|exact Hj]. }
      unfold dict_get.
      apply find_one_elem in Hf as Hin. destruct Hin as [Hin _].
      destruct (record !! "remarks") as [[| | |rem]|]; try done; simpl; rewrite Hf; simpl;
        (split; [apply update_one_length|]);
        lazymatch goal with
        | |- context [Mongo.update_one _ ?f before] =>
            destruct (update_by_id_stored before existing f Hin) as (y & Hid & Hy);
              [done|exists (f y); by repeat split]
        end.
Qed.

(** ** The report *)

Lemma count_dates_distinct records :
  count_dates records = length (remove_dups (Attendance.date <$> records)).
Proof.
  unfold count_dates.
  rewrite <- (size_list_to_set (C := gset string) (remove_dups _))
    by apply NoDup_remove_dups.
  f_equal. apply set_eq. intros x.
  by rewrite !elem_of_list_to_set, elem_of_remove_dups.
Qed.

Lemma count_status_filters records sid st :
  length (filter (has_status st) (filter (of_student sid) records))
  = count_status records sid st.
Proof. unfold count_status. by rewrite list_filter_filter. Qed.

(** The loop body never raises: the division is guarded. *)
Lemma student_stat_ok records student :
  student_stat records student = Ok (stat_of records student).
Proof.
  unfold student_stat, stat_of, percentage, truediv.
  rewrite !count_status_filters, count_dates_distinct.
  destruct (length (remove_dups (Attendance.date <$> records))) as [|n]; [done|].
  rewrite decide_True by lia. simpl. done.
Qed.

Lemma report_loop_ok records students :
  report_loop records students = Ok (stat_of records <$> students).
Proof.
  induction students as [|s students IH]; simpl; [done|].
  by rewrite student_stat_ok, IH.
Qed.

Lemma get_attendance_report_ok class_id start_date end_date students attendance :
  get_attendance_report class_id start_date end_date students attendance
  = Ok (Report.mk class_id start_date end_date
          (stat_of (report_records class_id start_date end_date attendance)
             <$> report_students class_id students)).
Proof. unfold get_attendance_report. by rewrite report_loop_ok. Qed.



Example empty_range_report :
  get_attendance_report "c1" "2025-01-01" "2025-01-31" sample_students sample_attendance
  = Ok (Report.mk "c1" "2025-01-01" "2025-01-31"
          [ StudentStat.mk "A" "Ana" "1" 0 0 0 0 (PyInt 0);
            StudentStat.mk "B" "Ben" "2" 0 0 0 0 (PyInt 0) ]).
Proof. vm_compute. reflexivity. Qed.


(** ** Rounding *)

Lemma round_half_even_shift_nearest (num k : Z) :
  (0 ≤ num)%Z → (0 < k)%Z →
  (0 ≤ round_half_even_shift num k)%Z
  ∧ (Z.abs (2 * num - 2 * round_half_even_shift num k * 2 ^ k) ≤ 2 ^ k)%Z
  ∧ (Z.abs (2 * num - 2 * round_half_even_shift num k * 2 ^ k) = 2 ^ k →
     Z.even (round_half_even_shift num k) = true)%Z.
Proof.
  intros Hnum Hk. unfold round_half_even_shift.
  set (den := (2 ^ k)%Z).
  assert (0 < den)%Z as Hden by (apply Z.pow_pos_nonneg; lia).
  pose proof (Z.div_mod num den ltac:(lia)) as Hdm.
  pose proof (Z.mod_pos_bound num den Hden) as Hr.
  assert (0 ≤ num / den)%Z as Hq by (apply Z.div_pos; lia).
  set (q := (num / den)%Z) in *. set (r := (num mod den)%Z) in *.
  destruct (Z.compare_spec (2 * r) den) as [Heq|Hlt|Hgt].
  - destruct (Z.even q) eqn:Hev.
    + split; [lia|]. split; [nia|]. done.
    + split; [lia|]. split; [nia|]. intros _. by rewrite Z.even_add, Hev.
  - split; [lia|]. split; [nia|]. intros Habs. nia.
  - split; [lia|]. split; [nia|]. intros Habs. nia.
Qed.

(** [round(x, 2)] as the report computes it meets the statement of rounding
    on exact values. *)
Lemma float_round2_spec (x : float) : rounded_to_hundredths x (float_round2 x).
Proof.
  unfold rounded_to_hundredths, float_round2.
  destruct (Prim2SF x) as [| | |s m e]; try done.
  destruct (Z.leb_spec 0 e) as [He|He].
  - exists (Z.pos m * 100 * 2 ^ e)%Z. split; [|by destruct s].
    unfold nearest_hundredth. rewrite Z.max_l, Z.max_r by lia. rewrite Z.pow_0_r.
    assert (0 < 2 ^ e)%Z by (apply Z.pow_pos_nonneg; lia).
    split; [nia|]. split; [|intros Habs; exfalso]; lia.
  - exists (round_half_even_shift (Z.pos m * 100) (- e)). split; [|by destruct s].
    unfold nearest_hundredth. rewrite Z.max_r, Z.max_l by lia.
    replace (100 * Z.pos m * 2 ^ 0)%Z with (Z.pos m * 100)%Z
      by (rewrite Z.pow_0_r; lia).
    apply round_half_even_shift_nearest; lia.
Qed.

(** C3 fails as stated: the counts are taken over the first 10000 records
    fetched for the class and the range, not over all of the student's own
    records. Of 10001 records in the range the last is this student's, marked
    present; the report gives the student [present = 0]. *)
Lemma report_counts_miss_records_beyond_cap :
  ∃ rep e,
    get_attendance_report "c1" "2024-01-01" "2024-01-31" [last_student] many_records
    = Ok rep
    ∧ Report.report rep = [e]
    ∧ StudentStat.student_id e = "s10000"
    ∧ StudentStat.present e = 0
    ∧ count_status
        (filter (matches (report_query "c1" "2024-01-01" "2024-01-31")) many_records)
        "s10000" "present" = 1.
Proof.
  eexists _, _. split; [apply get_attendance_report_ok|]. simpl.
  split; [reflexivity|]. split; [reflexivity|].
  split; vm_compute; reflexivity.
Qed.

(** C3 (amended). The report always answers (no division by zero). In
    every entry [present], [absent] and [late] count the records of that
    student with that status among the records fetched, which are the first
    10000 records of the class in the range, in storage order, and so all of
    them when at most 10000 match. The percentage is the int [0] when
    [total_days] is [0]; otherwise it is a float, the float product
    [present / total_days * 100] rounded to two decimal places: the float
    nearest to [n / 100], where [n] hundredths is nearest to the exact value
    of that product, the even [n] on a tie. *)
Theorem report_counts_and_percentage
    (class_id start_date end_date : string)
    (students : list Student.t) (attendance : list Attendance.t) :
  ∃ rep,
    get_attendance_report class_id start_date end_date students attendance = Ok rep
    ∧ Forall (λ e,
        let fetched :=
          take 10000
            (filter (matches (report_query class_id start_date end_date)) attendance) in
        StudentStat.present e = count_status fetched (StudentStat.student_id e) "present"
        ∧ StudentStat.absent e = count_status fetched (StudentStat.student_id e) "absent"
        ∧ StudentStat.late e = count_status fetched (StudentStat.student_id e) "late"
        ∧ (StudentStat.total_days e = 0 →
           StudentStat.attendance_percentage e = PyInt 0)
        ∧ (0 < StudentStat.total_days e →
           ∃ f, StudentStat.attendance_percentage e = PyFloat f
             ∧ rounded_to_hundredths
                 (float_of_nat (StudentStat.present e)
                  / float_of_nat (StudentStat.total_days e) * 100)%float f))
        (Report.report rep)
    ∧ ((length (filter (matches (report_query class_id start_date end_date)) attendance)
        ≤ 10000)%nat →
       take 10000 (filter (matches (report_query class_id start_date end_date)) attendance)
       = filter (matches (report_query class_id start_date end_date)) attendance).
Proof.
  eexists. split; [apply get_attendance_report_ok|]. simpl. split.
  - apply Forall_fmap, Forall_true. intros s. simpl. unfold percentage.
    repeat (split; [done|]). split.
    + intros ->. done.
    + intros Hpos. rewrite decide_False by lia.
      eexists. split; [done|]. apply float_round2_spec.
  - intros Hlen. by apply take_ge.
Qed.

(** Student A is present on two of the three days fetched: 66.67, not
    66.66666666666667. *)
Example report_rounding_run :
  get_attendance_report "c1" "2024-01-08" "2024-02-01" sample_students iso_attendance
  = Ok (Report.mk "c1" "2024-01-08" "2024-02-01"
          [ StudentStat.mk "A" "Ana" "1" 3 2 1 0 (PyFloat 66.67);
            StudentStat.mk "B" "Ben" "2" 3 0 0 0 (PyFloat 0) ]).
Proof. vm_compute. reflexivity. Qed.

(** Thirds, sixths and an exact tie (3.125 goes to the even 3.12). *)
Example percentage_rounding_run :
  percentage 1 3 = PyFloat 33.33 ∧ percentage 2 3 = PyFloat 66.67
  ∧ percentage 5 6 = PyFloat 83.33 ∧ percentage 1 32 = PyFloat 3.12
  ∧ percentage 3 32 = PyFloat 9.38 ∧ percentage 1 8 = PyFloat 12.5
  ∧ percentage 0 7 = PyFloat 0 ∧ percentage 4 0 = PyInt 0.
Proof. repeat split; vm_compute; reflexivity. Qed.

(** ** Who is listed *)

(** C4. The report at a class of 1001 students, none with attendance
    records: it answers with 1000 entries, and the last student of the
    class, who belongs to it like the others, has no entry. The students are
    read with a limit of 1000, under the comment that says all students of
    the class are fetched. *)
Lemma report_omits_student_beyond_limit :
  ∃ s rep,
    big_class !! 1000 = Some s
    ∧ Student.class_id s = "c1"
    ∧ get_attendance_report "c1" "2024-01-01" "2024-01-31" big_class [] = Ok rep
    ∧ length (Report.report rep) = 1000
    ∧ Forall (λ e, StudentStat.student_id e ≠ Student.id s) (Report.report rep).
Proof.
  exists (Student.mk "s1000" "name" "1000" "c1" None None "t").
  eexists. split; [vm_compute; reflexivity|]. split; [reflexivity|].
  split; [apply get_attendance_report_ok|]. simpl. split.
  - vm_compute. reflexivity.
  - apply (bool_decide_unpack _). vm_compute. exact I.
Qed.

(** X23. A student among the first 1000 students of the class, in
    storage order, has an entry in the report at the same position, with the
    student's id, name and roll number; when no record of the class in the
    range is the student's, the entry's [present], [absent] and [late] are
    all zero. *)
Theorem report_lists_students_without_records
    (class_id start_date end_date : string)
    (students : list Student.t) (attendance : list Attendance.t)
    (i : nat) (s : Student.t) :
  filter (in_class class_id) students !! i = Some s →
  i < 1000 →
  ∃ rep e,
    get_attendance_report class_id start_date end_date students attendance = Ok rep
    ∧ Report.report rep !! i = Some e
    ∧ StudentStat.student_id e = Student.id s
    ∧ StudentStat.student_name e = Student.name s
    ∧ StudentStat.roll_number e = Student.roll_number s
    ∧ (filter (λ r, Attendance.student_id r = Student.id s
                    ∧ matches (report_query class_id start_date end_date) r) attendance
       = [] →
       StudentStat.present e = 0 ∧ StudentStat.absent e = 0 ∧ StudentStat.late e = 0).
Proof.
  intros Hs Hi.
  eexists _, (stat_of (report_records class_id start_date end_date attendance) s).
  split; [apply get_attendance_report_ok|]. simpl. split.
  - rewrite list_lookup_fmap. unfold report_students, Mongo.find.
    rewrite lookup_take_lt by done. by rewrite Hs.
  - repeat (split; [done|]). intros Hnone.
    assert (∀ st, count_status (report_records class_id start_date end_date attendance)
                    (Student.id s) st = 0) as Hzero.
    { intros st. unfold count_status.
      destruct (filter _ (report_records class_id start_date end_date attendance))
        as [|r rest] eqn:Hf; [done|exfalso].
      assert (r ∈ r :: rest) as Hr by left. rewrite <- Hf in Hr.
      apply list_elem_of_filter in Hr as [[_ Hsid] Hr].
      unfold report_records, Mongo.find in Hr.
      apply elem_of_take in Hr as (j & Hr & _).
      apply list_elem_of_lookup_2 in Hr. apply list_elem_of_filter in Hr as [Hm Hin].
      eapply (filter_nil_not_elem_of _ _ r Hnone); [|exact Hin]. by split. }
    by rewrite !Hzero.
Qed.

Lemma report_lists_students_without_records_witness :
  ∃ rep e,
    get_attendance_report "c1" "2024-01-08" "2024-01-12" sample_students sample_attendance
    = Ok rep
    ∧ Report.report rep !! 1 = Some e
    ∧ StudentStat.student_id e = "B"
    ∧ StudentStat.student_name e = "Ben"
    ∧ StudentStat.roll_number e = "2"
    ∧ (filter (λ r, Attendance.student_id r = "B"
                    ∧ matches (report_query "c1" "2024-01-08" "2024-01-12") r)
         sample_attendance = [] →
       StudentStat.present e = 0 ∧ StudentStat.absent e = 0 ∧ StudentStat.late e = 0).
Proof.
  apply (report_lists_students_without_records "c1" "2024-01-08" "2024-01-12"
           sample_students sample_attendance 1
           (Student.mk "B" "Ben" "2" "c1" None None "2024-01-01T09:02:00+00:00")).
  - reflexivity.
  - lia.
Defined.

(** ** Queries *)

(** The date constraint of the query: an exact date that is not the empty
    string wins over the range; otherwise the range counts only when both
    bounds are non-empty. *)
Lemma attendance_query_date class_id student_id date start_date end_date :
  q_date (attendance_query class_id student_id date start_date end_date)
  = if truthy date then DateEq (default "" date)
    else if truthy start_date && truthy end_date
         then DateRange (default "" start_date) (default "" end_date)
         else DateAny.
Proof. done. Qed.

(** C6 fails as stated. With the exact date 2024-01-05 and the range
    2024-01-01 to 2024-01-31 both given, 10001 records have that date and the
    answer holds 10000 of them: it is not exactly the records of the date.
    And an exact date given as the empty string does not take precedence:
    the range is applied, so the answer is neither the records of that date
    (there are none) nor the answer given without the range. *)
Lemma query_date_precedence_fails :
  length (get_attendance None None (Some "2024-01-05") (Some "2024-01-01")
            (Some "2024-01-31") many_records) = 10000
  ∧ length (filter (λ r, Attendance.date r = "2024-01-05") many_records) = 10001
  ∧ get_attendance None None (Some "2024-01-05") (Some "2024-01-01") (Some "2024-01-31")
      many_records
    ≠ filter (λ r, Attendance.date r = "2024-01-05") many_records
  ∧ get_attendance None None (Some "") (Some "2024-01-08") (Some "2024-01-09")
      iso_attendance
    = take 2 iso_attendance
  ∧ get_attendance None None (Some "") (Some "2024-01-08") (Some "2024-01-09")
      iso_attendance
    ≠ filter (λ r, Attendance.date r = "") iso_attendance
  ∧ get_attendance None None (Some "") (Some "2024-01-08") (Some "2024-01-09")
      iso_attendance
    ≠ get_attendance None None (Some "") None None iso_attendance.
Proof.
  split; [vm_compute; reflexivity|]. split; [vm_compute; reflexivity|].
  split.
  { intros Heq. apply (f_equal length) in Heq. vm_compute in Heq. discriminate. }
  split; [vm_compute; reflexivity|].
  split; vm_compute; discriminate.
Qed.

(** C6 (amended). With an exact date that is not the empty string, the range
    bounds are ignored: the answer is the same whatever they are, and it is
    the first 10000, in storage order, of the records with that date that
    also pass the non-empty class and student filters. *)
Theorem query_date_precedence
    (class_id student_id start_date end_date : option string) (d : string)
    (attendance : list Attendance.t) :
  d ≠ "" →
  get_attendance class_id student_id (Some d) start_date end_date attendance
  = get_attendance class_id student_id (Some d) None None attendance
  ∧ get_attendance class_id student_id (Some d) start_date end_date attendance
    = take 10000
        (filter (λ r,
           field_matches (if truthy class_id then class_id else None) (Attendance.class_id r)
           ∧ field_matches (if truthy student_id then student_id else None)
               (Attendance.student_id r)
           ∧ Attendance.date r = d) attendance).
Proof.
  intros Hd. unfold get_attendance, attendance_query, Mongo.find. simpl.
  rewrite bool_decide_eq_true_2 by done. simpl. done.
Qed.

Lemma query_date_precedence_witness :
  get_attendance (Some "c1") None (Some "2024-01-09") (Some "2024-01-01") (Some "2024-01-08")
    iso_attendance
  = get_attendance (Some "c1") None (Some "2024-01-09") None None iso_attendance
  ∧ get_attendance (Some "c1") None (Some "2024-01-09") (Some "2024-01-01")
      (Some "2024-01-08") iso_attendance
    = take 10000
        (filter (λ r,
           field_matches (Some "c1") (Attendance.class_id r)
           ∧ field_matches None (Attendance.student_id r)
           ∧ Attendance.date r = "2024-01-09") iso_attendance).
Proof.
  apply (query_date_precedence (Some "c1") None (Some "2024-01-01") (Some "2024-01-08")
           "2024-01-09" iso_attendance).
  discriminate.
Defined.

(** The range 2024-01-01 to 2024-01-08 leaves out the date asked for; the
    record of that date is returned all the same. *)
Example query_date_precedence_run :
  Attendance.id
    <$> get_attendance (Some "c1") None (Some "2024-01-09") (Some "2024-01-01")
          (Some "2024-01-08") iso_attendance
  = ["i2"].
Proof. vm_compute. reflexivity. Qed.



Example query_single_bound_run :
  length (get_attendance (Some "c1") None None None (Some "2024-01-09") sample_attendance)
  = 6.
Proof. vm_compute. reflexivity. Qed.

(** ** Class update and delete *)

Lemma delete_one_found {A} (P : A → Prop) `{!∀ x, Decision (P x)} c x :
  Mongo.find_one P c = Some x →
  ∃ c', Mongo.delete_one P c = (c', 1) ∧ length c = S (length c').
Proof.
  unfold Mongo.find_one. induction c as [|y c IH]; simpl; [done|].
  rewrite filter_cons. destruct (decide (P y)) as [Hy|Hy].
  - intros _. by exists c.
  - intros Hf. destruct (IH Hf) as (c' & -> & Hlen).
    exists (y :: c'). simpl. by rewrite Hlen.
Qed.

(** C7. For class update and class delete alike: when no class has the id,
    every caller gets 404 and the collection is untouched; when the class
    exists, a caller of role teacher who is not its teacher gets 403 and the
    collection is untouched, and a caller of role admin succeeds whoever the
    class's teacher is (the update returns the patched class, the delete
    removes one document). The 404 check comes first: a missing class never
    gives 403. *)
Theorem class_write_authorization
    (class_id : string) (class_input : ClassCreate.t) (u : User.t)
    (classes : list Klass.t) :
  (Mongo.find_one (class_has_id class_id) classes = None →
     update_class class_id class_input u classes
     = (classes, Raise (HTTPException 404 "Class not found"))
     ∧ delete_class class_id u classes
       = (classes, Raise (HTTPException 404 "Class not found")))
  ∧ (∀ existing,
       Mongo.find_one (class_has_id class_id) classes = Some existing →
       (User.role u = "teacher" → Klass.teacher_id existing ≠ User.id u →
          update_class class_id class_input u classes
          = (classes, Raise (HTTPException 403 "Not authorized to update this class"))
          ∧ delete_class class_id u classes
            = (classes, Raise (HTTPException 403 "Not authorized to delete this class")))
       ∧ (User.role u = "admin" →
          (update_class class_id class_input u classes).2
          = Ok (set_class class_input existing)
          ∧ set_class class_input existing ∈ (update_class class_id class_input u classes).1
          ∧ (delete_class class_id u classes).2 = Ok "Class deleted successfully"
          ∧ length classes = S (length (delete_class class_id u classes).1))).
Proof.
  split.
  - intros Hf. unfold update_class, delete_class. by rewrite Hf.
  - intros existing Hf. split.
    + intros Hrole Hteacher. unfold update_class, delete_class. rewrite Hf.
      assert (User.role u ≠ "admin" ∧ Klass.teacher_id existing ≠ User.id u) as Hdeny.
      { split; [|done]. rewrite Hrole. discriminate. }
      by destruct (decide _) as [_|Hallow].
    + intros Hrole. unfold update_class, delete_class. rewrite Hf.
      rewrite decide_False by (intros [Hna _]; by apply Hna).
      assert (∀ x, class_has_id class_id x → class_has_id class_id (set_class class_input x))
        as Hset by done.
      rewrite (update_one_find _ _ _ Hset), Hf. simpl.
      split; [done|]. split; [by apply update_one_found|].
      destruct (delete_one_found _ _ _ Hf) as (c' & -> & Hlen). simpl.
      rewrite decide_False by (intros [Hna _]; by apply Hna). done.
Qed.

Example class_routes_run :
  update_class "c9" sample_class_input admin_z sample_classes
  = (sample_classes, Raise (HTTPException 404 "Class not found"))
  ∧ delete_class "c9" teacher_a sample_classes
    = (sample_classes, Raise (HTTPException 404 "Class not found"))
  ∧ delete_class "c2" teacher_a sample_classes
    = (sample_classes, Raise (HTTPException 403 "Not authorized to delete this class"))
  ∧ delete_class "c2" admin_z sample_classes
    = ([ Klass.mk "c1" "Math" "A" None "u-a" "2024-01-01T10:00:00+00:00" ],
       Ok "Class deleted successfully")
  ∧ delete_class "c1" teacher_a sample_classes
    = ([ Klass.mk "c2" "Art" "B" (Some "Drawing") "u-b" "2024-01-01T10:05:00+00:00" ],
       Ok "Class deleted successfully").
Proof. repeat split; vm_compute; reflexivity. Qed.

Lemma class_write_authorization_witness :
  (update_class "c2" sample_class_input teacher_a sample_classes
   = (sample_classes, Raise (HTTPException 403 "Not authorized to update this class"))
   ∧ delete_class "c2" teacher_a sample_classes
     = (sample_classes, Raise (HTTPException 403 "Not authorized to delete this class")))
  ∧ (update_class "c9" sample_class_input admin_z sample_classes
     = (sample_classes, Raise (HTTPException 404 "Class not found"))
     ∧ delete_class "c9" admin_z sample_classes
       = (sample_classes, Raise (HTTPException 404 "Class not found")))
  ∧ (update_class "c2" sample_class_input admin_z sample_classes).2
    = Ok (Klass.mk "c2" "Maths" "A1" (Some "Algebra") "u-b" "2024-01-01T10:05:00+00:00").
Proof.
  split; [|split].
  - apply (proj2 (class_write_authorization "c2" sample_class_input teacher_a
                    sample_classes)
             (Klass.mk "c2" "Art" "B" (Some "Drawing") "u-b" "2024-01-01T10:05:00+00:00")).
    + reflexivity.
    + reflexivity.
    + discriminate.
  - apply (proj1 (class_write_authorization "c9" sample_class_input admin_z
                    sample_classes)).
    reflexivity.
  - apply (proj2 (class_write_authorization "c2" sample_class_input admin_z
                    sample_classes)
             (Klass.mk "c2" "Art" "B" (Some "Drawing") "u-b" "2024-01-01T10:05:00+00:00")).
    + reflexivity.
    + reflexivity.
Defined.

Example sample_remark_run :
  mark_attendance (effects_n "9") teacher_b sample_remark (take 2 sample_attendance)
  = ([ Attendance.mk "a1" "A" "c1" "2024-01-08" "late" "u-b" (Some "bus") "t" "t1-9";
       Attendance.mk "a2" "A" "c1" "2024-01-09" "present" "u-a" None "t" "t" ],
     Ok (Attendance.mk "a1" "A" "c1" "2024-01-08" "late" "u-b" (Some "bus") "t" "t1-9")).
Proof. vm_compute. reflexivity. Qed.

Lemma duplicate_mark_is_upsert_witness :
  length (mark_attendance (effects_n "9") teacher_b sample_remark sample_attendance).1
  = length sample_attendance
  ∧ ∃ r,
      (mark_attendance (effects_n "9") teacher_b sample_remark sample_attendance).2 = Ok r
      ∧ r ∈ (mark_attendance (effects_n "9") teacher_b sample_remark sample_attendance).1
      ∧ Attendance.id r = "a1"
      ∧ same_triple "A" "c1" "2024-01-08" r
      ∧ Attendance.status r = "late"
      ∧ Attendance.remarks r = Some "bus"
      ∧ Attendance.marked_by r = "u-b".
Proof.
  apply (proj1 (proj2 (duplicate_mark_is_upsert (effects_n "9") sample_env teacher_b
                         sample_remark "c1" "2024-01-08" sample_records sample_attendance))
           (Attendance.mk "a1" "A" "c1" "2024-01-08" "present" "u-a" None "t" "t")).
  reflexivity.
Defined.

Lemma report_counts_and_percentage_witness :
  ∃ rep,
    get_attendance_report "c1" "2024-01-08" "2024-02-01" sample_students iso_attendance
    = Ok rep
    ∧ Forall (λ e,
        let fetched :=
          take 10000
            (filter (matches (report_query "c1" "2024-01-08" "2024-02-01"))
               iso_attendance) in
        StudentStat.present e = count_status fetched (StudentStat.student_id e) "present"
        ∧ StudentStat.absent e = count_status fetched (StudentStat.student_id e) "absent"
        ∧ StudentStat.late e = count_status fetched (StudentStat.student_id e) "late"
        ∧ (StudentStat.total_days e = 0 →
           StudentStat.attendance_percentage e = PyInt 0)
        ∧ (0 < StudentStat.total_days e →
           ∃ f, StudentStat.attendance_percentage e = PyFloat f
             ∧ rounded_to_hundredths
                 (float_of_nat (StudentStat.present e)
                  / float_of_nat (StudentStat.total_days e) * 100)%float f))
        (Report.report rep)
    ∧ ((length (filter (matches (report_query "c1" "2024-01-08" "2024-02-01"))
                  iso_attendance) ≤ 10000)%nat →
       take 10000 (filter (matches (report_query "c1" "2024-01-08" "2024-02-01"))
                     iso_attendance)
       = filter (matches (report_query "c1" "2024-01-08" "2024-02-01")) iso_attendance).
Proof.
  apply (report_counts_and_percentage "c1" "2024-01-08" "2024-02-01" sample_students
           iso_attendance).
Defined.

(** ** The uniqueness invariant *)

Lemma same_triple_of s c d r : same_triple s c d r ↔ triple_of r = (s, c, d).
Proof.
  unfold same_triple, triple_of. split.
  - by intros (-> & -> & ->).
  - by intros [= -> -> ->].
Qed.

Lemma filter_none_not_in s c d att :
  filter (same_triple s c d) att = [] → (s, c, d) ∉ triple_of <$> att.
Proof.
  intros Hnone (r & Heq & Hr)%list_elem_of_fmap.
  apply (filter_nil_not_elem_of _ _ r Hnone); [|done]. by apply same_triple_of.
Qed.

(** With distinct triples at most one record answers a triple. *)
Lemma unique_triple_view s c d att :
  NoDup (triple_of <$> att) → ∃ o, filter (same_triple s c d) att = option_list o.
Proof.
  induction att as [|r att IH]; intros Hnd; [by exists None|].
  rewrite fmap_cons in Hnd. apply NoDup_cons in Hnd as [Hr Hnd].
  rewrite filter_cons. destruct (decide (same_triple s c d r)) as [Hs|Hs]; [|by apply IH].
  exists (Some r). simpl. f_equal.
  destruct (filter (same_triple s c d) att) as [|r' rest] eqn:Hf; [done|exfalso].
  assert (r' ∈ filter (same_triple s c d) att) as Hin by (rewrite Hf; left).
  apply list_elem_of_filter in Hin as [Hs' Hin]. apply Hr.
  apply same_triple_of in Hs, Hs'. rewrite Hs, <- Hs'. by apply list_elem_of_fmap_2.
Qed.

Lemma mark_call_store_ok att k :
  store_ok att → uuid4 (call_effects k) ∉ ids att → store_ok (mark_call att k).
Proof.
  intros [Hids Htr] Hfresh. split.
  - destruct (unique_triple_view "" "" "" att Htr) as [o Ho].
    by destruct (mark_call_view "" "" "" att k o Hids Hfresh Ho) as [? _].
  - destruct (mark_call_shape att k Hids)
      as [[Hnone ->]|(l1 & x & l2 & -> & Hl1 & Hx & ->)].
    + rewrite fmap_app. apply NoDup_app. split; [done|]. split; [|apply NoDup_singleton].
      intros t Ht [->|[]%elem_of_nil]%elem_of_cons.
      by apply (filter_none_not_in _ _ _ _ Hnone).
    + rewrite fmap_app, fmap_cons in *.
      assert (triple_of (set_update (call_input k) (User.id (call_user k))
                           (now1 (call_effects k)) x) = triple_of x) as ->; [|done].
      apply same_triple_of in Hx. by rewrite Hx.
Qed.

Lemma mark_call_ids att k i :
  NoDup (ids att) → i ∈ ids (mark_call att k) → i = uuid4 (call_effects k) ∨ i ∈ ids att.
Proof.
  intros Hids Hi.
  destruct (mark_call_shape att k Hids)
    as [[_ Heq]|(l1 & x & l2 & -> & _ & _ & Heq)]; rewrite Heq in Hi.
  - rewrite ids_app in Hi. apply elem_of_app in Hi as [Hi|Hi]; [by right|left].
    by apply list_elem_of_singleton in Hi.
  - right. by rewrite !ids_app in *.
Qed.

(** X1. Requests served one after the other, each drawing a [uuid4()]
    that was never drawn before and that no stored record has, keep the
    ids distinct and leave at most one record per student, class and
    date. *)
Theorem mark_all_keeps_store_ok (calls : list MarkCall) (att : list Attendance.t) :
  store_ok att →
  NoDup (uuid4 ∘ call_effects <$> calls) →
  (∀ k, k ∈ calls → uuid4 (call_effects k) ∉ ids att) →
  store_ok (mark_all calls att).
Proof.
  revert att. induction calls as [|k calls IH]; intros att Hok Huu Hfresh; [done|].
  rewrite fmap_cons in Huu. apply NoDup_cons in Huu as [Hk Huu].
  simpl. apply IH; [|done|].
  - apply mark_call_store_ok; [done|]. apply Hfresh. left.
  - intros k' Hk' Hin. destruct (mark_call_ids att k _ (proj1 Hok) Hin) as [Heq|Hold].
    + apply Hk. change ((uuid4 ∘ call_effects) k) with (uuid4 (call_effects k)).
      rewrite <- Heq. by apply (list_elem_of_fmap_2 (uuid4 ∘ call_effects)).
    + apply (Hfresh k'); [by right|done].
Qed.

Lemma mark_all_keeps_store_ok_witness : store_ok (mark_all sample_calls []).
Proof.
  apply mark_all_keeps_store_ok.
  - split; apply NoDup_nil_2.
  - apply (bool_decide_unpack _). vm_compute. exact I.
  - intros k _ Hin. by apply elem_of_nil in Hin.
Defined.

(** X2. The bulk route writes what the single-record route would write:
    the collection it leaves, whether it answers or raises, is the one left
    by one single-record request per entry, in order, up to the first entry
    it cannot read. *)
Theorem bulk_is_sequence_of_marks
    (env : nat → Effects) (u : User.t) (c d : string)
    (records : list (gmap string json)) (att : list Attendance.t) :
  (mark_bulk_attendance env u (BulkAttendanceCreate.mk c d records) att).1
  = mark_all (bulk_calls env 0 u c d records) att.
Proof.
  unfold mark_bulk_attendance. simpl.
  assert (∀ i res a, (bulk_loop env i u c d records a res).1
                     = mark_all (bulk_calls env i u c d records) a) as Hloop.
  { induction records as [|record records IH]; intros i res a; simpl; [done|].
    destruct (attendance_create_of c d record) as [inp|exc]; [|done]. simpl.
    destruct (Mongo.find_one _ a) as [existing|] eqn:Hf; rewrite IH; f_equal;
      unfold mark_call, mark_attendance; simpl; rewrite Hf; [|done].
    by destruct (Mongo.find_one (has_id _) _). }
  specialize (Hloop 0 [] att).
  by destruct (bulk_loop env 0 u c d records att []).
Qed.

(** One iteration of the bulk loop writes what the single-record route
    writes for the entry. *)
Lemma bulk_loop_step env i u c d record records att res inp :
  attendance_create_of c d record = Ok inp →
  ∃ res',
    bulk_loop env i u c d (record :: records) att res
    = bulk_loop env (S i) u c d records
        (mark_call att {| call_effects := env i; call_user := u; call_input := inp |}) res'.
Proof.
  intros Hinp. simpl. rewrite Hinp. unfold mark_call, mark_attendance. simpl.
  destruct (Mongo.find_one _ att) as [existing|]; [|by eexists].
  destruct (Mongo.find_one (has_id _) _); by eexists.
Qed.

Lemma bulk_loop_store_ok env u c d records : ∀ i res att,
  store_ok att →
  NoDup ((λ j, uuid4 (env j)) <$> seq i (length records)) →
  (∀ j, i ≤ j < i + length records → uuid4 (env j) ∉ ids att) →
  store_ok (bulk_loop env i u c d records att res).1.
Proof.
  induction records as [|record records IH]; intros i res att Hok Huu Hfresh; [done|].
  destruct (attendance_create_of c d record) as [inp|exc] eqn:Hinp;
    [|by simpl; rewrite Hinp].
  destruct (bulk_loop_step env i u c d record records att res inp Hinp) as [res' ->].
  simpl in Huu. apply NoDup_cons in Huu as [Hi Huu].
  apply IH; [|done|].
  - apply mark_call_store_ok; [done|]. apply Hfresh. simpl. lia.
  - intros j Hj Hin.
    destruct (mark_call_ids att _ _ (proj1 Hok) Hin) as [Heq|Hold].
    + simpl in Heq. apply Hi. rewrite <- Heq.
      apply (list_elem_of_fmap_2 (λ j, uuid4 (env j))). apply elem_of_seq. lia.
    + apply (Hfresh j); [simpl; lia|done].
Qed.

(** X3. A bulk request whose iterations draw ids that are pairwise
    distinct and not yet stored keeps the ids distinct and leaves at most one
    record per student, class and date, whether it answers or raises. *)
Theorem bulk_keeps_store_ok
    (env : nat → Effects) (u : User.t) (c d : string)
    (records : list (gmap string json)) (att : list Attendance.t) :
  store_ok att →
  NoDup ((λ j, uuid4 (env j)) <$> seq 0 (length records)) →
  (∀ j, j < length records → uuid4 (env j) ∉ ids att) →
  store_ok (mark_bulk_attendance env u (BulkAttendanceCreate.mk c d records) att).1.
Proof.
  intros Hok Huu Hfresh. unfold mark_bulk_attendance. simpl.
  pose proof (bulk_loop_store_ok env u c d records 0 [] att Hok Huu) as Hloop.
  destruct (bulk_loop env 0 u c d records att []). apply Hloop.
  intros j Hj. apply Hfresh. lia.
Qed.

Lemma bulk_keeps_store_ok_witness :
  store_ok (mark_bulk_attendance sample_env teacher_a
              (BulkAttendanceCreate.mk "c1" "2024-01-05" sample_records) []).1.
Proof.
  apply bulk_keeps_store_ok.
  - split; apply NoDup_nil_2.
  - apply (bool_decide_unpack _). vm_compute. exact I.
  - intros j _ Hin. by apply elem_of_nil in Hin.
Defined.

(** X4. With distinct ids in the collection, a single-record request
    leaves every record of another student, class or date as it was and
    where it was. *)
Theorem mark_attendance_leaves_other_triples
    (e : Effects) (u : User.t) (inp : AttendanceCreate.t) (att : list Attendance.t) :
  NoDup (ids att) →
  filter (λ r, ¬ same_triple (AttendanceCreate.student_id inp)
                 (AttendanceCreate.class_id inp) (AttendanceCreate.date inp) r)
    (mark_attendance e u inp att).1
  = filter (λ r, ¬ same_triple (AttendanceCreate.student_id inp)
                   (AttendanceCreate.class_id inp) (AttendanceCreate.date inp) r) att.
Proof.
  intros Hids.
  destruct (mark_call_shape att {| call_effects := e; call_user := u; call_input := inp |}
              Hids) as [[_ Heq]|(l1 & x & l2 & -> & _ & Hx & Heq)];
    unfold mark_call in Heq; simpl in Heq; rewrite Heq.
  - rewrite filter_app, filter_cons_False; [by rewrite filter_nil, app_nil_r|].
    intros Hn. by apply Hn.
  - rewrite !filter_app, !filter_cons. simpl in Hx.
    rewrite (decide_False (P := ¬ same_triple _ _ _ x)) by (intros Hn; by apply Hn).
    rewrite decide_False; [done|]. intros Hn. by apply Hn.
Qed.

Lemma mark_attendance_leaves_other_triples_witness :
  filter (λ r, ¬ same_triple "A" "c1" "2024-01-08" r)
    (mark_attendance (effects_n "9") teacher_b sample_remark sample_attendance).1
  = filter (λ r, ¬ same_triple "A" "c1" "2024-01-08" r) sample_attendance.
Proof.
  apply (mark_attendance_leaves_other_triples (effects_n "9") teacher_b sample_remark
           sample_attendance).
  apply (bool_decide_unpack _). vm_compute. exact I.
Defined.

(** ** Order of strings *)

Lemma str_le_trans a b c : str_le a b → str_le b c → str_le a c.
Proof.
  unfold str_le, String.leb. revert b c.
  induction a as [|x a IH]; intros [|y b] [|z c]; simpl; try done.
  unfold Ascii.compare.
  destruct (N.compare_spec (Ascii.N_of_ascii x) (Ascii.N_of_ascii y)) as [Hxy|Hxy|Hxy];
    destruct (N.compare_spec (Ascii.N_of_ascii y) (Ascii.N_of_ascii z)) as [Hyz|Hyz|Hyz];
    try done; intros Hab Hbc.
  - rewrite Hxy, Hyz, N.compare_refl. by apply (IH b c).
  - rewrite Hxy. by apply N.compare_lt_iff in Hyz as ->.
  - rewrite <- Hyz. by apply N.compare_lt_iff in Hxy as ->.
  - assert (Ascii.N_of_ascii x < Ascii.N_of_ascii z)%N as Hxz by lia.
    by apply N.compare_lt_iff in Hxz as ->.
Qed.

Lemma NoDup_fmap_elem_inj {A B} (f : A → B) (l : list A) x y :
  NoDup (f <$> l) → x ∈ l → y ∈ l → f x = f y → x = y.
Proof.
  induction l as [|z l IH]; intros Hnd Hx Hy Hf; [by apply elem_of_nil in Hx|].
  rewrite fmap_cons in Hnd. apply NoDup_cons in Hnd as [Hz Hnd].
  apply elem_of_cons in Hx as [->|Hx]; apply elem_of_cons in Hy as [->|Hy]; [done| | |].
  - exfalso. apply Hz. rewrite Hf. by apply list_elem_of_fmap_2.
  - exfalso. apply Hz. rewrite <- Hf. by apply list_elem_of_fmap_2.
  - by apply IH.
Qed.

(** ** Marking, then querying *)

(** X5. After a single-record request for a non-empty student, class
    and date, made on a collection that satisfies the uniqueness invariant
    with an id not yet stored, the query for that student, class and date
    returns the record of the response and nothing else, whatever range
    bounds come with it. *)
Theorem mark_then_query
    (e : Effects) (u : User.t) (inp : AttendanceCreate.t) (att : list Attendance.t)
    (start_date end_date : option string) :
  store_ok att →
  uuid4 e ∉ ids att →
  AttendanceCreate.student_id inp ≠ "" →
  AttendanceCreate.class_id inp ≠ "" →
  AttendanceCreate.date inp ≠ "" →
  ∃ r, (mark_attendance e u inp att).2 = Ok r
    ∧ get_attendance (Some (AttendanceCreate.class_id inp))
        (Some (AttendanceCreate.student_id inp)) (Some (AttendanceCreate.date inp))
        start_date end_date (mark_attendance e u inp att).1
      = [r].
Proof.
  intros [Hids Htr] Hfresh Hs Hc Hd.
  set (k := {| call_effects := e; call_user := u; call_input := inp |}).
  set (T := same_triple (AttendanceCreate.student_id inp) (AttendanceCreate.class_id inp)
              (AttendanceCreate.date inp)).
  assert (∀ att', get_attendance (Some (AttendanceCreate.class_id inp))
            (Some (AttendanceCreate.student_id inp)) (Some (AttendanceCreate.date inp))
            start_date end_date att' = take 10000 (filter T att')) as Hq.
  { intros att'. unfold get_attendance, attendance_query, Mongo.find. simpl.
    rewrite !bool_decide_eq_true_2 by done. simpl. f_equal.
    apply list_filter_iff. intros r. unfold matches, T, same_triple. simpl. tauto. }
  rewrite Hq. clear Hq.
  destruct (unique_triple_view (AttendanceCreate.student_id inp)
              (AttendanceCreate.class_id inp) (AttendanceCreate.date inp) att Htr)
    as [o Ho].
  destruct (mark_call_view _ _ _ att k o Hids Hfresh Ho) as (_ & _ & Hview).
  unfold mark_call in Hview. simpl in Hview. fold T in Hview, Ho. rewrite Hview.
  unfold upsert. rewrite decide_True by done. simpl.
  destruct (Mongo.find_one T att) as [existing|] eqn:Hf.
  - destruct (mark_attendance_existing e u inp att existing Hf) as (y & Hy & ->).
    simpl. eexists. split; [done|]. do 2 f_equal.
    unfold Mongo.find_one in Hf. rewrite Ho in Hf.
    destruct o as [x|]; simpl in Hf; [injection Hf as ->|done].
    f_equal. apply find_one_elem in Hy as [Hyin Hyid].
    assert (existing ∈ att) as Hein.
    { assert (existing ∈ filter T att) as Hin by (rewrite Ho; left).
      by apply list_elem_of_filter in Hin as [_ ?]. }
    symmetry. by apply (NoDup_fmap_elem_inj Attendance.id att).
  - unfold mark_attendance. fold T. rewrite Hf. simpl.
    eexists. split; [done|].
    apply find_one_None in Hf. rewrite Hf in Ho.
    symmetry in Ho. apply option_list_nil in Ho as ->. done.
Qed.

Lemma mark_then_query_witness :
  ∃ r, (mark_attendance (effects_n "9") teacher_b sample_remark sample_attendance).2 = Ok r
    ∧ get_attendance (Some "c1") (Some "A") (Some "2024-01-08") (Some "2030-01-01") None
        (mark_attendance (effects_n "9") teacher_b sample_remark sample_attendance).1
      = [r].
Proof.
  apply (mark_then_query (effects_n "9") teacher_b sample_remark sample_attendance
           (Some "2030-01-01") None).
  - split; apply (bool_decide_unpack _); vm_compute; exact I.
  - apply (bool_decide_unpack _). vm_compute. exact I.
  - discriminate.
  - discriminate.
  - discriminate.
Defined.

(** X6. Without an exact date, two non-empty bounds select the records
    whose date lies between them, bounds included, in the byte order of
    strings: the answer is the first 10000 such records that pass the class
    and student filters, every returned record lies within the bounds, and
    bounds in the wrong order select nothing. *)
Theorem query_range
    (class_id student_id date : option string) (lo hi : string)
    (attendance : list Attendance.t) :
  truthy date = false →
  lo ≠ "" →
  hi ≠ "" →
  get_attendance class_id student_id date (Some lo) (Some hi) attendance
  = take 10000
      (filter (λ r,
         field_matches (if truthy class_id then class_id else None) (Attendance.class_id r)
         ∧ field_matches (if truthy student_id then student_id else None)
             (Attendance.student_id r)
         ∧ str_le lo (Attendance.date r) ∧ str_le (Attendance.date r) hi) attendance)
  ∧ Forall (λ r, str_le lo (Attendance.date r) ∧ str_le (Attendance.date r) hi)
      (get_attendance class_id student_id date (Some lo) (Some hi) attendance)
  ∧ (¬ str_le lo hi →
     get_attendance class_id student_id date (Some lo) (Some hi) attendance = []).
Proof.
  intros Hdate Hlo Hhi.
  assert (get_attendance class_id student_id date (Some lo) (Some hi) attendance
          = take 10000
              (filter (λ r,
                 field_matches (if truthy class_id then class_id else None)
                   (Attendance.class_id r)
                 ∧ field_matches (if truthy student_id then student_id else None)
                     (Attendance.student_id r)
                 ∧ str_le lo (Attendance.date r) ∧ str_le (Attendance.date r) hi)
                 attendance)) as Heq.
  { unfold get_attendance, attendance_query, Mongo.find. simpl.
    rewrite Hdate, !bool_decide_eq_true_2 by done. done. }
  rewrite Heq. split; [done|].
  assert (Forall (λ r, str_le lo (Attendance.date r) ∧ str_le (Attendance.date r) hi)
            (take 10000
               (filter (λ r,
                  field_matches (if truthy class_id then class_id else None)
                    (Attendance.class_id r)
                  ∧ field_matches (if truthy student_id then student_id else None)
                      (Attendance.student_id r)
                  ∧ str_le lo (Attendance.date r) ∧ str_le (Attendance.date r) hi)
                  attendance))) as Hall.
  { apply Forall_take, Forall_forall. intros r Hr.
    by apply list_elem_of_filter in Hr as [(_ & _ & ?) _]. }
  split; [done|]. intros Hempty.
  destruct (take 10000 _) as [|r rest]; [done|exfalso].
  apply Forall_cons in Hall as [[Hl Hh] _]. apply Hempty.
  by apply (str_le_trans lo (Attendance.date r) hi).
Qed.

Lemma query_range_witness :
  get_attendance (Some "c1") None None (Some "2024-01-09") (Some "2024-01-11")
    sample_attendance
  = take 10000
      (filter (λ r,
         field_matches (Some "c1") (Attendance.class_id r)
         ∧ field_matches None (Attendance.student_id r)
         ∧ str_le "2024-01-09" (Attendance.date r)
         ∧ str_le (Attendance.date r) "2024-01-11") sample_attendance)
  ∧ Forall (λ r, str_le "2024-01-09" (Attendance.date r)
                 ∧ str_le (Attendance.date r) "2024-01-11")
      (get_attendance (Some "c1") None None (Some "2024-01-09") (Some "2024-01-11")
         sample_attendance)
  ∧ (¬ str_le "2024-01-09" "2024-01-11" →
     get_attendance (Some "c1") None None (Some "2024-01-09") (Some "2024-01-11")
       sample_attendance = []).
Proof.
  apply (query_range (Some "c1") None None "2024-01-09" "2024-01-11" sample_attendance).
  - reflexivity.
  - discriminate.
  - discriminate.
Defined.

Example query_range_run :
  Attendance.id <$> get_attendance (Some "c1") None None (Some "2024-01-09")
                      (Some "2024-01-11") sample_attendance
  = ["a2"; "a3"; "a4"].
Proof. vm_compute. reflexivity. Qed.

(** ** Counts of the report under the uniqueness invariant *)

Lemma count_status_sum records sid :
  (count_status records sid "present" + count_status records sid "absent"
   + count_status records sid "late"
   ≤ length (filter (of_student sid) records))%nat.
Proof.
  unfold count_status, of_student.
  induction records as [|r records IH]; [done|].
  rewrite !filter_cons.
  repeat case_decide; simpl; try lia; exfalso;
    repeat match goal with H : _ ∧ _ |- _ => destruct H end;
    try congruence;
    match goal with H : ¬ (_ ∧ _) |- _ => apply H; by split end.
Qed.

Lemma report_records_sublist class_id start_date end_date attendance :
  report_records class_id start_date end_date attendance `sublist_of` attendance.
Proof.
  unfold report_records, Mongo.find.
  etrans; [apply sublist_take|apply sublist_filter].
Qed.

Lemma report_records_class class_id start_date end_date attendance r :
  r ∈ report_records class_id start_date end_date attendance →
  Attendance.class_id r = class_id.
Proof.
  unfold report_records, Mongo.find. intros Hr.
  apply elem_of_take in Hr as (j & Hr & _). apply list_elem_of_lookup_2 in Hr.
  by apply list_elem_of_filter in Hr as [(? & _) _].
Qed.

(** X7. When no two attendance records share a student, class and
    date, every entry of the report has [present + absent + late] at most
    [total_days]: a student is counted at most once per day, so the
    percentage is taken of a count that does not exceed the number of
    days. *)
Theorem report_counts_within_days
    (class_id start_date end_date : string)
    (students : list Student.t) (attendance : list Attendance.t) :
  NoDup (triple_of <$> attendance) →
  ∃ rep,
    get_attendance_report class_id start_date end_date students attendance = Ok rep
    ∧ Forall (λ e, (StudentStat.present e + StudentStat.absent e + StudentStat.late e
                    ≤ StudentStat.total_days e)%nat) (Report.report rep).
Proof.
  intros Hnd. eexists. split; [apply get_attendance_report_ok|]. simpl.
  apply Forall_fmap, Forall_true. intros s. simpl.
  set (fetched := report_records class_id start_date end_date attendance).
  etrans; [apply count_status_sum|].
  rewrite <- (length_fmap Attendance.date).
  apply submseteq_length, NoDup_submseteq.
  - assert (NoDup (triple_of <$> filter (of_student (Student.id s)) fetched)) as Hnd'.
    { eapply sublist_NoDup; [exact Hnd|]. apply fmap_sublist.
      etrans; [apply sublist_filter|apply report_records_sublist]. }
    apply NoDup_fmap_2_strong; [|by apply NoDup_fmap_1 in Hnd'].
    intros x y Hx Hy Hdate.
    apply (NoDup_fmap_elem_inj triple_of _ x y Hnd' Hx Hy).
    apply list_elem_of_filter in Hx as [Hxs Hx], Hy as [Hys Hy].
    apply report_records_class in Hx, Hy. unfold of_student in *.
    unfold triple_of. by rewrite Hxs, Hys, Hx, Hy, Hdate.
  - intros dt (r & -> & Hr)%list_elem_of_fmap.
    apply elem_of_remove_dups, list_elem_of_fmap_2.
    by apply list_elem_of_filter in Hr as [_ ?].
Qed.

Lemma report_counts_within_days_witness :
  ∃ rep,
    get_attendance_report "c1" "2024-01-08" "2024-01-12" sample_students sample_attendance
    = Ok rep
    ∧ Forall (λ e, (StudentStat.present e + StudentStat.absent e + StudentStat.late e
                    ≤ StudentStat.total_days e)%nat) (Report.report rep).
Proof.
  apply (report_counts_within_days "c1" "2024-01-08" "2024-01-12" sample_students
           sample_attendance).
  apply (bool_decide_unpack _). vm_compute. exact I.
Defined.

(** ** Deleting from a collection *)

Lemma delete_one_split {A} (P : A → Prop) `{!∀ x, Decision (P x)} c x :
  Mongo.find_one P c = Some x →
  ∃ l1 l2, c = l1 ++ x :: l2 ∧ Forall (λ y, ¬ P y) l1 ∧ P x
    ∧ Mongo.delete_one P c = (l1 ++ l2, 1).
Proof.
  intros Hf. destruct (find_one_split P c x Hf) as (l1 & l2 & -> & Hl1 & Hx).
  exists l1, l2. repeat (split; [done|]). clear Hf.
  induction Hl1 as [|y l1 Hy _ IH]; simpl.
  - by rewrite decide_True.
  - by rewrite decide_False, IH.
Qed.

Lemma delete_one_none {A} (P : A → Prop) `{!∀ x, Decision (P x)} c :
  Mongo.find_one P c = None → Mongo.delete_one P c = (c, 0).
Proof.
  intros Hf%find_one_None. induction c as [|y c IH]; simpl; [done|].
  rewrite filter_cons in Hf. destruct (decide (P y)); [done|]. by rewrite IH.
Qed.

Lemma filter_all_false {A} (P : A → Prop) `{!∀ x, Decision (P x)} l :
  Forall (λ y, ¬ P y) l → filter P l = [].
Proof. induction 1 as [|y l Hy _ IH]; [done|]. by rewrite filter_cons_False. Qed.

(** ** Student routes *)

Lemma same_roll_key r c s : same_roll r c s ↔ roll_key s = (r, c).
Proof.
  unfold same_roll, roll_key. split; [by intros [-> ->]|by intros [= -> ->]].
Qed.

Lemma find_one_same_roll r c students :
  is_Some (Mongo.find_one (same_roll r c) students) ↔ (r, c) ∈ roll_key <$> students.
Proof.
  split.
  - intros [s Hs]. apply find_one_elem in Hs as [Hin Hs].
    apply same_roll_key in Hs. rewrite <- Hs. by apply list_elem_of_fmap_2.
  - intros (s & Heq & Hin)%list_elem_of_fmap.
    destruct (Mongo.find_one (same_roll r c) students) eqn:Hf; [done|exfalso].
    apply find_one_None in Hf. apply (filter_nil_not_elem_of _ _ s Hf); [|done].
    by apply same_roll_key.
Qed.

Lemma create_student_taken e inp students :
  (StudentCreate.roll_number inp, StudentCreate.class_id inp) ∈ roll_key <$> students →
  create_student e inp students
  = (students, Raise (HTTPException 400 "Roll number already exists in this class")).
Proof.
  intros Hin%find_one_same_roll. unfold create_student. by destruct Hin as [s ->].
Qed.

Lemma create_student_free e inp students :
  (StudentCreate.roll_number inp, StudentCreate.class_id inp) ∉ roll_key <$> students →
  create_student e inp students
  = (students ++ [new_student e inp], Ok (new_student e inp)).
Proof.
  intros Hfree. unfold create_student.
  destruct (Mongo.find_one _ students) as [existing|] eqn:Hf; [|done].
  exfalso. apply Hfree, find_one_same_roll. by rewrite Hf.
Qed.

(** X8. Creating a student never produces two students with the same
    roll number in the same class: a taken roll number is refused with 400
    and the collection is untouched, a free one appends the new student, and
    if the pairs of roll number and class were distinct before they are
    distinct afterwards. *)
Theorem create_student_keeps_rolls_unique
    (e : Effects) (inp : StudentCreate.t) (students : list Student.t) :
  ((StudentCreate.roll_number inp, StudentCreate.class_id inp) ∈ roll_key <$> students →
     create_student e inp students
     = (students, Raise (HTTPException 400 "Roll number already exists in this class")))
  ∧ ((StudentCreate.roll_number inp, StudentCreate.class_id inp) ∉ roll_key <$> students →
     create_student e inp students
     = (students ++ [new_student e inp], Ok (new_student e inp)))
  ∧ (NoDup (roll_key <$> students) →
     NoDup (roll_key <$> (create_student e inp students).1)).
Proof.
  split; [apply create_student_taken|]. split; [apply create_student_free|].
  intros Hnd.
  destruct (decide ((StudentCreate.roll_number inp, StudentCreate.class_id inp)
                    ∈ roll_key <$> students)) as [Hin|Hfree].
  - by rewrite create_student_taken.
  - rewrite create_student_free by done. simpl.
    rewrite fmap_app. apply NoDup_app. split; [done|]. split; [|apply NoDup_singleton].
    by intros k Hk [->|[]%elem_of_nil]%elem_of_cons.
Qed.

Lemma create_student_keeps_rolls_unique_witness :
  NoDup (roll_key <$> (create_student (effects_n "7") sample_student_input
                         sample_students).1).
Proof.
  apply (create_student_keeps_rolls_unique (effects_n "7") sample_student_input
           sample_students).
  apply (bool_decide_unpack _). vm_compute. exact I.
Defined.

(** X9. Round trip: when the roll number is free in the class and the
    id drawn is not yet stored, the student that [create_student] returns
    is the one [get_student] then finds under the new id. *)
Theorem create_then_get_student
    (e : Effects) (inp : StudentCreate.t) (students : list Student.t) :
  (StudentCreate.roll_number inp, StudentCreate.class_id inp) ∉ roll_key <$> students →
  uuid4 e ∉ Student.id <$> students →
  ∃ s, (create_student e inp students).2 = Ok s
    ∧ Student.id s = uuid4 e
    ∧ get_student (uuid4 e) (create_student e inp students).1 = Ok s.
Proof.
  intros Hfree Hfresh. rewrite create_student_free by done.
  exists (new_student e inp). split; [done|]. split; [done|]. simpl.
  unfold get_student, Mongo.find_one. rewrite filter_app.
  rewrite (filter_all_false (student_has_id (uuid4 e)) students).
  - by rewrite filter_cons_True.
  - apply Forall_forall. intros s Hs Hid. apply Hfresh. rewrite <- Hid.
    by apply list_elem_of_fmap_2.
Qed.

Lemma create_then_get_student_witness :
  ∃ s, (create_student (effects_n "7") sample_student_input sample_students).2 = Ok s
    ∧ Student.id s = "id-7"
    ∧ get_student "id-7"
        (create_student (effects_n "7") sample_student_input sample_students).1 = Ok s.
Proof.
  apply (create_then_get_student (effects_n "7") sample_student_input sample_students).
  - apply (bool_decide_unpack _). vm_compute. exact I.
  - apply (bool_decide_unpack _). vm_compute. exact I.
Defined.

Lemma find_one_exists {A} (P : A → Prop) `{!∀ x, Decision (P x)} c x :
  x ∈ c → P x → is_Some (Mongo.find_one P c).
Proof.
  intros Hin Hx. destruct (Mongo.find_one P c) eqn:Hf; [done|exfalso].
  apply find_one_None in Hf. by apply (filter_nil_not_elem_of _ _ x Hf).
Qed.

Lemma find_student_by_id student_id students :
  is_Some (Mongo.find_one (student_has_id student_id) students)
  ↔ student_id ∈ Student.id <$> students.
Proof.
  split.
  - intros [s Hs]. apply find_one_elem in Hs as [Hin Hs].
    rewrite <- Hs. by apply list_elem_of_fmap_2.
  - intros (s & -> & Hin)%list_elem_of_fmap. by apply (find_one_exists _ _ s).
Qed.

Lemma update_student_existing student_id inp students existing :
  Mongo.find_one (student_has_id student_id) students = Some existing →
  update_student student_id inp students
  = (Mongo.update_one (student_has_id student_id) (set_student inp) students,
     Ok (set_student inp existing)).
Proof.
  intros Hf. unfold update_student. rewrite Hf.
  assert (∀ x, student_has_id student_id x → student_has_id student_id (set_student inp x))
    as Hset by done.
  by rewrite (update_one_find _ _ _ Hset), Hf.
Qed.

(** X10. Updating a student that does not exist answers 404 and
    changes nothing. Updating one that exists rewrites the first document
    with that id: the response carries the input's fields with the old [id]
    and [created_at], the collection keeps its length, and [get_student]
    then returns the same student. *)
Theorem update_then_get_student
    (student_id : string) (inp : StudentCreate.t) (students : list Student.t) :
  (student_id ∉ Student.id <$> students →
     update_student student_id inp students
     = (students, Raise (HTTPException 404 "Student not found")))
  ∧ (∀ existing,
       Mongo.find_one (student_has_id student_id) students = Some existing →
       (update_student student_id inp students).2
       = Ok {| Student.id := student_id;
               Student.name := StudentCreate.name inp;
               Student.roll_number := StudentCreate.roll_number inp;
               Student.class_id := StudentCreate.class_id inp;
               Student.email := StudentCreate.email inp;
               Student.phone := StudentCreate.phone inp;
               Student.created_at := Student.created_at existing |}
       ∧ length (update_student student_id inp students).1 = length students
       ∧ get_student student_id (update_student student_id inp students).1
         = (update_student student_id inp students).2).
Proof.
  split.
  - intros Hnot. unfold update_student.
    destruct (Mongo.find_one _ students) as [s|] eqn:Hf; [|done].
    exfalso. apply Hnot, find_student_by_id. by rewrite Hf.
  - intros existing Hf. rewrite (update_student_existing _ _ _ _ Hf). simpl.
    split; [|split; [apply update_one_length|]].
    + apply find_one_elem in Hf as [_ Hid]. unfold set_student. by rewrite Hid.
    + unfold get_student.
      assert (∀ x, student_has_id student_id x
                   → student_has_id student_id (set_student inp x)) as Hset by done.
      by rewrite (update_one_find _ _ _ Hset), Hf.
Qed.

Lemma update_then_get_student_witness :
  update_student "Q" sample_student_input sample_students
  = (sample_students, Raise (HTTPException 404 "Student not found"))
  ∧ (update_student "B" sample_student_input sample_students).2
    = Ok (Student.mk "B" "Cy" "3" "c1" (Some "cy@school.test") None
            "2024-01-01T09:02:00+00:00")
  ∧ length (update_student "B" sample_student_input sample_students).1
    = length sample_students
  ∧ get_student "B" (update_student "B" sample_student_input sample_students).1
    = (update_student "B" sample_student_input sample_students).2.
Proof.
  split.
  - apply (proj1 (update_then_get_student "Q" sample_student_input sample_students)).
    apply (bool_decide_unpack _). vm_compute. exact I.
  - apply (proj2 (update_then_get_student "B" sample_student_input sample_students)
             (Student.mk "B" "Ben" "2" "c1" None None "2024-01-01T09:02:00+00:00")).
    reflexivity.
Defined.

Example update_then_get_student_run :
  update_student "B" sample_student_input sample_students
  = ([ Student.mk "A" "Ana" "1" "c1" None None "2024-01-01T09:00:00+00:00";
       Student.mk "X" "Xia" "1" "c2" None None "2024-01-01T09:01:00+00:00";
       Student.mk "B" "Cy" "3" "c1" (Some "cy@school.test") None
         "2024-01-01T09:02:00+00:00" ],
     Ok (Student.mk "B" "Cy" "3" "c1" (Some "cy@school.test") None
           "2024-01-01T09:02:00+00:00"))
  ∧ get_student "B" (update_student "B" sample_student_input sample_students).1
    = Ok (Student.mk "B" "Cy" "3" "c1" (Some "cy@school.test") None
            "2024-01-01T09:02:00+00:00").
Proof. split; vm_compute; reflexivity. Qed.

(** X11. Updating checks no roll number: when another student already
    has the roll number and class of the input, the update still succeeds
    and the collection then holds two students with that roll number in
    that class. *)
Theorem update_student_can_duplicate_roll
    (student_id : string) (inp : StudentCreate.t) (students : list Student.t)
    (existing other : Student.t) :
  Mongo.find_one (student_has_id student_id) students = Some existing →
  other ∈ students →
  Student.id other ≠ student_id →
  roll_key other = (StudentCreate.roll_number inp, StudentCreate.class_id inp) →
  (update_student student_id inp students).2 = Ok (set_student inp existing)
  ∧ ¬ NoDup (roll_key <$> (update_student student_id inp students).1).
Proof.
  intros Hf Hother Hid Hkey. rewrite (update_student_existing _ _ _ _ Hf). simpl.
  split; [done|].
  destruct (find_one_split _ _ _ Hf) as (l1 & l2 & -> & Hl1 & Hx).
  rewrite (update_one_split _ _ _ _ _ Hl1 Hx).
  rewrite fmap_app, fmap_cons. intros Hnd.
  apply NoDup_app in Hnd as (_ & Hdisj & Hnd2). apply NoDup_cons in Hnd2 as [Hnot _].
  assert (roll_key (set_student inp existing) = roll_key other) as Hsame by by rewrite Hkey.
  apply elem_of_app in Hother as [Hin|Hin].
  - apply (Hdisj (roll_key other)); [by apply list_elem_of_fmap_2|].
    rewrite <- Hsame. left.
  - apply elem_of_cons in Hin as [->|Hin]; [done|].
    apply Hnot. rewrite Hsame. by apply list_elem_of_fmap_2.
Qed.

Lemma update_student_can_duplicate_roll_witness :
  (update_student "B" (StudentCreate.mk "Ben" "1" "c1" None None) sample_students).2
  = Ok (Student.mk "B" "Ben" "1" "c1" None None "2024-01-01T09:02:00+00:00")
  ∧ ¬ NoDup (roll_key <$> (update_student "B" (StudentCreate.mk "Ben" "1" "c1" None None)
                             sample_students).1).
Proof.
  apply (update_student_can_duplicate_roll "B" (StudentCreate.mk "Ben" "1" "c1" None None)
           sample_students
           (Student.mk "B" "Ben" "2" "c1" None None "2024-01-01T09:02:00+00:00")
           (Student.mk "A" "Ana" "1" "c1" None None "2024-01-01T09:00:00+00:00")).
  - reflexivity.
  - left.
  - discriminate.
  - reflexivity.
Defined.

(** X12. Deleting a student whose id is not stored answers 404 and
    changes nothing. Deleting a stored one succeeds, removes exactly one
    document and leaves the students of every other id as they were; when
    the stored ids are distinct, [get_student] then answers 404. *)
Theorem delete_student_removes_one (student_id : string) (students : list Student.t) :
  (student_id ∉ Student.id <$> students →
     delete_student student_id students
     = (students, Raise (HTTPException 404 "Student not found")))
  ∧ (student_id ∈ Student.id <$> students →
     (delete_student student_id students).2 = Ok "Student deleted successfully"
     ∧ length students = S (length (delete_student student_id students).1)
     ∧ filter (λ s, Student.id s ≠ student_id) (delete_student student_id students).1
       = filter (λ s, Student.id s ≠ student_id) students
     ∧ (NoDup (Student.id <$> students) →
        get_student student_id (delete_student student_id students).1
        = Raise (HTTPException 404 "Student not found"))).
Proof.
  unfold delete_student. split.
  - intros Hnot.
    rewrite (delete_one_none (student_has_id student_id) students); [done|].
    destruct (Mongo.find_one _ students) as [s|] eqn:Hf; [|done].
    exfalso. apply Hnot, find_student_by_id. by rewrite Hf.
  - intros [s Hf]%find_student_by_id.
    destruct (delete_one_split _ _ _ Hf) as (l1 & l2 & -> & Hl1 & Hs & ->). simpl.
    split; [done|]. split; [rewrite !length_app; simpl; lia|]. split.
    + rewrite !filter_app, filter_cons_False; [done|]. intros Hn. by apply Hn.
    + intros Hnd. unfold get_student, Mongo.find_one. rewrite filter_app.
      rewrite (filter_all_false _ l1 Hl1). simpl.
      rewrite (filter_all_false _ l2); [done|].
      rewrite fmap_app, fmap_cons in Hnd.
      apply NoDup_app in Hnd as (_ & _ & Hnd). apply NoDup_cons in Hnd as [Hnot _].
      apply Forall_forall. intros y Hy Hid. apply Hnot.
      unfold student_has_id in Hs, Hid. rewrite Hs, <- Hid. by apply list_elem_of_fmap_2.
Qed.

Lemma delete_student_removes_one_witness :
  (delete_student "X" sample_students).2 = Ok "Student deleted successfully"
  ∧ length sample_students = S (length (delete_student "X" sample_students).1)
  ∧ filter (λ s, Student.id s ≠ "X") (delete_student "X" sample_students).1
    = filter (λ s, Student.id s ≠ "X") sample_students
  ∧ (NoDup (Student.id <$> sample_students) →
     get_student "X" (delete_student "X" sample_students).1
     = Raise (HTTPException 404 "Student not found")).
Proof.
  apply (proj2 (delete_student_removes_one "X" sample_students)).
  apply (bool_decide_unpack _). vm_compute. exact I.
Defined.

(** X13. For a non-empty class id, the entries of the report stand for
    the students that [get_students] lists for that class, one for one and
    in the same order, and each listed student is of that class. Without a
    class id, or with the empty string, [get_students] lists the first 1000
    students of all classes. *)
Theorem report_follows_student_listing
    (class_id start_date end_date : string)
    (students : list Student.t) (attendance : list Attendance.t) :
  class_id ≠ "" →
  (∃ rep,
     get_attendance_report class_id start_date end_date students attendance = Ok rep
     ∧ StudentStat.student_id <$> Report.report rep
       = Student.id <$> get_students (Some class_id) students)
  ∧ Forall (λ s, Student.class_id s = class_id) (get_students (Some class_id) students)
  ∧ get_students None students = take 1000 students
  ∧ get_students (Some "") students = take 1000 students.
Proof.
  intros Hc.
  assert (get_students (Some class_id) students = report_students class_id students) as Hg.
  { unfold get_students, report_students, Mongo.find. f_equal.
    apply list_filter_iff. intros s. unfold students_query, in_class. simpl.
    by rewrite (bool_decide_eq_true_2 (class_id ≠ "")). }
  assert (∀ l : list Student.t, filter (students_query None) l = l
                                ∧ filter (students_query (Some "")) l = l) as Hall.
  { induction l as [|s l [IH1 IH2]]; [done|].
    rewrite !filter_cons_True by done. by rewrite IH1, IH2. }
  split; [|split; [|split]].
  - eexists. split; [apply get_attendance_report_ok|]. simpl.
    rewrite Hg, <- list_fmap_compose. done.
  - rewrite Hg. unfold report_students, Mongo.find.
    apply Forall_take, Forall_forall. intros s Hs.
    by apply list_elem_of_filter in Hs as [? _].
  - unfold get_students, Mongo.find. by rewrite (proj1 (Hall students)).
  - unfold get_students, Mongo.find. by rewrite (proj2 (Hall students)).
Qed.

Lemma report_follows_student_listing_witness :
  (∃ rep,
     get_attendance_report "c1" "2024-01-08" "2024-01-12" sample_students sample_attendance
     = Ok rep
     ∧ StudentStat.student_id <$> Report.report rep
       = Student.id <$> get_students (Some "c1") sample_students)
  ∧ Forall (λ s, Student.class_id s = "c1") (get_students (Some "c1") sample_students)
  ∧ get_students None sample_students = take 1000 sample_students
  ∧ get_students (Some "") sample_students = take 1000 sample_students.
Proof.
  apply (report_follows_student_listing "c1" "2024-01-08" "2024-01-12" sample_students
           sample_attendance).
  discriminate.
Defined.

(** ** Class ownership *)

Lemma find_class_by_id class_id classes :
  is_Some (Mongo.find_one (class_has_id class_id) classes)
  ↔ class_id ∈ Klass.id <$> classes.
Proof.
  split.
  - intros [c Hc]. apply find_one_elem in Hc as [Hin Hc].
    rewrite <- Hc. by apply list_elem_of_fmap_2.
  - intros (c & -> & Hin)%list_elem_of_fmap. by apply (find_one_exists _ _ c).
Qed.

(** A caller allowed on the class found gets the patched class back. *)
Lemma update_class_allowed class_id inp u classes existing :
  Mongo.find_one (class_has_id class_id) classes = Some existing →
  User.role u = "admin" ∨ Klass.teacher_id existing = User.id u →
  update_class class_id inp u classes
  = (Mongo.update_one (class_has_id class_id) (set_class inp) classes,
     Ok (set_class inp existing)).
Proof.
  intros Hf Hallow. unfold update_class. rewrite Hf.
  rewrite decide_False by (intros [? ?]; by destruct Hallow).
  assert (∀ x, class_has_id class_id x → class_has_id class_id (set_class inp x))
    as Hset by done.
  by rewrite (update_one_find _ _ _ Hset), Hf.
Qed.

Lemma delete_class_allowed class_id u classes existing :
  Mongo.find_one (class_has_id class_id) classes = Some existing →
  User.role u = "admin" ∨ Klass.teacher_id existing = User.id u →
  (delete_class class_id u classes).2 = Ok "Class deleted successfully".
Proof.
  intros Hf Hallow. unfold delete_class. rewrite Hf.
  rewrite decide_False by (intros [? ?]; by destruct Hallow).
  by destruct (delete_one_split _ _ _ Hf) as (l1 & l2 & _ & _ & _ & ->).
Qed.

Lemma find_created_class e inp u classes :
  uuid4 e ∉ Klass.id <$> classes →
  Mongo.find_one (class_has_id (uuid4 e)) (create_class e inp u classes).1
  = Some (new_class e inp (User.id u)).
Proof.
  intros Hfresh. simpl. unfold Mongo.insert_one, Mongo.find_one. rewrite filter_app.
  rewrite (filter_all_false (class_has_id (uuid4 e)) classes).
  - by rewrite filter_cons_True.
  - apply Forall_forall. intros c Hc Hid. apply Hfresh. rewrite <- Hid.
    by apply list_elem_of_fmap_2.
Qed.

(** X14. A class is owned by whoever created it: after [create_class]
    with an id not yet stored, [get_class] returns the new class with the
    creator as teacher, the creator may update and delete it whatever their
    role, and any other caller who is not an admin gets 403 from both
    routes. *)
Theorem created_class_belongs_to_creator
    (e : Effects) (inp inp' : ClassCreate.t) (u other : User.t) (classes : list Klass.t) :
  uuid4 e ∉ Klass.id <$> classes →
  let classes' := (create_class e inp u classes).1 in
  get_class (uuid4 e) classes' = Ok (new_class e inp (User.id u))
  ∧ (create_class e inp u classes).2 = Ok (new_class e inp (User.id u))
  ∧ (update_class (uuid4 e) inp' u classes').2
    = Ok (set_class inp' (new_class e inp (User.id u)))
  ∧ (delete_class (uuid4 e) u classes').2 = Ok "Class deleted successfully"
  ∧ (User.role other ≠ "admin" → User.id other ≠ User.id u →
     update_class (uuid4 e) inp' other classes'
     = (classes', Raise (HTTPException 403 "Not authorized to update this class"))
     ∧ delete_class (uuid4 e) other classes'
       = (classes', Raise (HTTPException 403 "Not authorized to delete this class"))).
Proof.
  intros Hfresh classes'.
  pose proof (find_created_class e inp u classes Hfresh) as Hf. fold classes' in Hf.
  split; [unfold get_class; by rewrite Hf|]. split; [done|].
  split; [by rewrite (update_class_allowed _ _ _ _ _ Hf) by by right|].
  split; [by apply (delete_class_allowed _ _ _ _ Hf); right|].
  intros Hrole Hid. unfold update_class, delete_class. rewrite Hf.
  rewrite !decide_True; [done|split; [done|]..]; simpl; congruence.
Qed.

Lemma created_class_belongs_to_creator_witness :
  let classes' := (create_class (effects_n "5") sample_class_input teacher_a
                     sample_classes).1 in
  get_class "id-5" classes' = Ok (new_class (effects_n "5") sample_class_input "u-a")
  ∧ (create_class (effects_n "5") sample_class_input teacher_a sample_classes).2
    = Ok (new_class (effects_n "5") sample_class_input "u-a")
  ∧ (update_class "id-5" sample_class_input teacher_a classes').2
    = Ok (set_class sample_class_input (new_class (effects_n "5") sample_class_input "u-a"))
  ∧ (delete_class "id-5" teacher_a classes').2 = Ok "Class deleted successfully"
  ∧ (User.role teacher_b ≠ "admin" → User.id teacher_b ≠ User.id teacher_a →
     update_class "id-5" sample_class_input teacher_b classes'
     = (classes', Raise (HTTPException 403 "Not authorized to update this class"))
     ∧ delete_class "id-5" teacher_b classes'
       = (classes', Raise (HTTPException 403 "Not authorized to delete this class"))).
Proof.
  apply (created_class_belongs_to_creator (effects_n "5") sample_class_input
           sample_class_input teacher_a teacher_b sample_classes).
  apply (bool_decide_unpack _). vm_compute. exact I.
Defined.

Lemma update_one_fmap_inv {A B} (P : A → Prop) `{!∀ x, Decision (P x)}
    (set : A → A) (f : A → B) c :
  (∀ x, f (set x) = f x) → f <$> Mongo.update_one P set c = f <$> c.
Proof.
  intros Hf. induction c as [|y c IH]; simpl; [done|].
  case_decide; rewrite !fmap_cons; by rewrite ?Hf, ?IH.
Qed.

(** X15. Updating a class never changes who owns which class: whoever
    calls it and whatever the input and the outcome, the ids, the teachers
    and the creation times of the stored classes are the same afterwards,
    position by position. *)
Theorem update_class_keeps_owners
    (class_id : string) (inp : ClassCreate.t) (u : User.t) (classes : list Klass.t) :
  Klass.id <$> (update_class class_id inp u classes).1 = Klass.id <$> classes
  ∧ Klass.teacher_id <$> (update_class class_id inp u classes).1
    = Klass.teacher_id <$> classes
  ∧ Klass.created_at <$> (update_class class_id inp u classes).1
    = Klass.created_at <$> classes.
Proof.
  unfold update_class.
  destruct (Mongo.find_one _ classes) as [existing|]; [|done].
  case_decide; [done|].
  destruct (Mongo.find_one _ (Mongo.update_one _ _ _)); simpl;
    by rewrite !update_one_fmap_inv.
Qed.

Lemma find_one_unique_id classes c :
  NoDup (Klass.id <$> classes) → c ∈ classes →
  Mongo.find_one (class_has_id (Klass.id c)) classes = Some c.
Proof.
  intros Hnd Hin.
  destruct (find_one_exists (class_has_id (Klass.id c)) classes c Hin) as [x Hx]; [done|].
  rewrite Hx. f_equal. apply find_one_elem in Hx as [Hxin Hxid].
  by apply (NoDup_fmap_elem_inj Klass.id classes).
Qed.

(** X16. The listing agrees with the authorization: a caller who is
    not an admin is listed only classes they teach, an admin is listed the
    first 1000 classes of anyone, and, when the stored class ids are
    distinct, every class a caller is listed is one the caller may update
    and delete. *)
Theorem listed_classes_are_writable
    (u : User.t) (inp : ClassCreate.t) (classes : list Klass.t) :
  (User.role u ≠ "admin" →
     Forall (λ c, Klass.teacher_id c = User.id u) (get_classes u classes))
  ∧ (User.role u = "admin" → get_classes u classes = take 1000 classes)
  ∧ (NoDup (Klass.id <$> classes) →
     Forall (λ c, (update_class (Klass.id c) inp u classes).2 = Ok (set_class inp c)
                  ∧ (delete_class (Klass.id c) u classes).2
                    = Ok "Class deleted successfully")
       (get_classes u classes)).
Proof.
  unfold get_classes, Mongo.find. split; [|split].
  - intros Hrole. apply Forall_take, Forall_forall. intros c Hc.
    apply list_elem_of_filter in Hc as [Hq _]. unfold classes_query in Hq.
    by rewrite decide_False in Hq.
  - intros Hrole. f_equal. induction classes as [|c classes IH]; [done|].
    rewrite filter_cons_True, IH; [done|]. unfold classes_query. by rewrite decide_True.
  - intros Hnd. apply Forall_take, Forall_forall. intros c Hc.
    apply list_elem_of_filter in Hc as [Hq Hin].
    pose proof (find_one_unique_id classes c Hnd Hin) as Hf.
    assert (User.role u = "admin" ∨ Klass.teacher_id c = User.id u) as Hallow.
    { unfold classes_query in Hq. case_decide; [by left|by right]. }
    split; [by rewrite (update_class_allowed _ _ _ _ _ Hf Hallow)|].
    by apply (delete_class_allowed _ _ _ _ Hf).
Qed.

Lemma listed_classes_are_writable_witness :
  Forall (λ c, (update_class (Klass.id c) sample_class_input teacher_a sample_classes).2
               = Ok (set_class sample_class_input c)
               ∧ (delete_class (Klass.id c) teacher_a sample_classes).2
                 = Ok "Class deleted successfully")
    (get_classes teacher_a sample_classes).
Proof.
  apply (listed_classes_are_writable teacher_a sample_class_input sample_classes).
  apply (bool_decide_unpack _). vm_compute. exact I.
Defined.

Example get_classes_run :
  Klass.id <$> get_classes teacher_a sample_classes = ["c1"]
  ∧ Klass.id <$> get_classes admin_z sample_classes = ["c1"; "c2"].
Proof. split; vm_compute; reflexivity. Qed.

(** ** Registration and login *)

Section auth_facts.
Variable hashpw : string → string → string.
Variable checkpw : string → string → bool.
Variable jwt_encode : gmap string string → string.
Variable plus_minutes : datetime → nat → datetime.

Lemma find_user_by_email email users :
  is_Some (Mongo.find_one (has_email email) users) ↔ email ∈ UserDoc.email <$> users.
Proof.
  split.
  - intros [doc Hd]. apply find_one_elem in Hd as [Hin Hd].
    rewrite <- Hd. by apply list_elem_of_fmap_2.
  - intros (doc & -> & Hin)%list_elem_of_fmap. by apply (find_one_exists _ _ doc).
Qed.

Lemma register_free e salt inp users :
  UserCreate.email inp ∉ UserDoc.email <$> users →
  register hashpw e salt inp users
  = (users ++ [UserDoc.mk (uuid4 e) (UserCreate.email inp) (UserCreate.name inp)
                 (UserCreate.role inp) (now1 e) (hashpw (UserCreate.password inp) salt)],
     Ok (User.mk (uuid4 e) (UserCreate.email inp) (UserCreate.name inp)
           (UserCreate.role inp) (now1 e))).
Proof.
  intros Hfree. unfold register.
  destruct (Mongo.find_one _ users) as [doc|] eqn:Hf; [|done].
  exfalso. apply Hfree, find_user_by_email. by rewrite Hf.
Qed.

Lemma register_taken e salt inp users :
  UserCreate.email inp ∈ UserDoc.email <$> users →
  register hashpw e salt inp users
  = (users, Raise (HTTPException 400 "Email already registered")).
Proof.
  intros Hin%find_user_by_email. unfold register. by destruct Hin as [doc ->].
Qed.

(** X17. Registration never stores two users with one email: a
    registered email is refused with 400 and nothing is stored, and if the
    stored emails were distinct before a registration they are distinct
    after it. What is stored as password is the hash, and the response
    carries the role the request asked for. *)
Theorem register_keeps_emails_unique
    (e : Effects) (salt : string) (inp : UserCreate.t) (users : list UserDoc.t) :
  (UserCreate.email inp ∈ UserDoc.email <$> users →
     register hashpw e salt inp users
     = (users, Raise (HTTPException 400 "Email already registered")))
  ∧ (UserCreate.email inp ∉ UserDoc.email <$> users →
     ∃ doc, (register hashpw e salt inp users).1 = users ++ [doc]
       ∧ UserDoc.password doc = hashpw (UserCreate.password inp) salt
       ∧ (register hashpw e salt inp users).2 = Ok (user_of_doc doc)
       ∧ UserDoc.role doc = UserCreate.role inp)
  ∧ (NoDup (UserDoc.email <$> users) →
     NoDup (UserDoc.email <$> (register hashpw e salt inp users).1)).
Proof.
  split; [apply register_taken|]. split.
  - intros Hfree. rewrite register_free by done. by eexists.
  - intros Hnd.
    destruct (decide (UserCreate.email inp ∈ UserDoc.email <$> users)) as [Hin|Hfree].
    + by rewrite register_taken.
    + rewrite register_free by done. simpl.
      rewrite fmap_app. apply NoDup_app. split; [done|]. split; [|apply NoDup_singleton].
      by intros m Hm [->|[]%elem_of_nil]%elem_of_cons.
Qed.

(** X18. Round trip: after registering a free email, and provided
    [checkpw] accepts the password against the hash [hashpw] made of it,
    logging in with the same email and password succeeds: the token is the
    one encoded for the new user's id with the expiry 1440 minutes after the
    login's clock reading, of type bearer, and the user returned is the one
    registration returned. *)
Theorem register_then_login
    (e e' : Effects) (salt : string) (inp : UserCreate.t) (users : list UserDoc.t) :
  UserCreate.email inp ∉ UserDoc.email <$> users →
  checkpw (UserCreate.password inp) (hashpw (UserCreate.password inp) salt) = true →
  ∃ u, (register hashpw e salt inp users).2 = Ok u
    ∧ login checkpw jwt_encode plus_minutes e'
        (UserLogin.mk (UserCreate.email inp) (UserCreate.password inp))
        (register hashpw e salt inp users).1
      = Ok (Token.mk
              (jwt_encode {[ "exp" := plus_minutes (now1 e') 1440; "sub" := User.id u ]})
              "bearer" u).
Proof.
  intros Hfree Hcheck. rewrite register_free by done.
  eexists. split; [done|]. simpl. unfold login, Mongo.find_one. simpl.
  rewrite filter_app.
  rewrite (filter_all_false (has_email (UserCreate.email inp)) users).
  - rewrite filter_cons_True by done. simpl. unfold verify_password. simpl.
    rewrite Hcheck. unfold create_access_token. done.
  - apply Forall_forall. intros doc Hdoc Hm. apply Hfree. rewrite <- Hm.
    by apply list_elem_of_fmap_2.
Qed.

(** X19. Logging in succeeds exactly when the first stored user with
    the email has a hash that [checkpw] accepts for the password, and then
    returns that user; an unknown email and a wrong password fail with the
    same 401 and the same message. *)
Theorem login_outcomes (e : Effects) (credentials : UserLogin.t) (users : list UserDoc.t) :
  (∃ doc tok,
     Mongo.find_one (has_email (UserLogin.email credentials)) users = Some doc
     ∧ checkpw (UserLogin.password credentials) (UserDoc.password doc) = true
     ∧ login checkpw jwt_encode plus_minutes e credentials users = Ok tok
     ∧ Token.user tok = user_of_doc doc
     ∧ Token.token_type tok = "bearer")
  ∨ ((UserLogin.email credentials ∉ UserDoc.email <$> users
      ∨ ∃ doc, Mongo.find_one (has_email (UserLogin.email credentials)) users = Some doc
          ∧ checkpw (UserLogin.password credentials) (UserDoc.password doc) = false)
     ∧ login checkpw jwt_encode plus_minutes e credentials users
       = Raise (HTTPException 401 "Invalid email or password")).
Proof.
  unfold login, verify_password.
  destruct (Mongo.find_one _ users) as [doc|] eqn:Hf.
  - destruct (checkpw _ _) eqn:Hc.
    + left. by eexists _, _.
    + right. split; [right; by eexists|done].
  - right. split; [left|done]. intros Hin%find_user_by_email.
    rewrite Hf in Hin. by destruct Hin.
Qed.

(** X20. The role is whatever the registration request says: someone
    who registers a free email with role admin is returned a user with that
    role, and as that user may delete any class that exists. *)
Theorem self_registered_admin_deletes_any_class
    (e : Effects) (salt : string) (inp : UserCreate.t) (users : list UserDoc.t)
    (class_id : string) (classes : list Klass.t) :
  UserCreate.email inp ∉ UserDoc.email <$> users →
  UserCreate.role inp = "admin" →
  class_id ∈ Klass.id <$> classes →
  ∃ u, (register hashpw e salt inp users).2 = Ok u
    ∧ User.role u = "admin"
    ∧ (delete_class class_id u classes).2 = Ok "Class deleted successfully".
Proof.
  intros Hfree Hrole [c Hc]%find_class_by_id. rewrite register_free by done.
  eexists. split; [done|]. split; [done|].
  apply (delete_class_allowed _ _ _ _ Hc). by left.
Qed.
End auth_facts.

Lemma register_keeps_emails_unique_witness :
  NoDup (UserDoc.email
           <$> (register toy_hashpw (effects_n "8") "salt" sample_signup sample_users).1).
Proof.
  apply (register_keeps_emails_unique toy_hashpw (effects_n "8") "salt" sample_signup
           sample_users).
  apply (bool_decide_unpack _). vm_compute. exact I.
Defined.

Lemma register_then_login_witness :
  ∃ u, (register toy_hashpw (effects_n "8") "salt" sample_signup sample_users).2 = Ok u
    ∧ login toy_checkpw toy_jwt_encode toy_plus_minutes (effects_n "9")
        (UserLogin.mk "m@school.test" "pw-m")
        (register toy_hashpw (effects_n "8") "salt" sample_signup sample_users).1
      = Ok (Token.mk
              (toy_jwt_encode
                 {[ "exp" := toy_plus_minutes "t1-9" 1440; "sub" := User.id u ]})
              "bearer" u).
Proof.
  apply (register_then_login toy_hashpw toy_checkpw toy_jwt_encode toy_plus_minutes
           (effects_n "8") (effects_n "9") "salt" sample_signup sample_users).
  - apply (bool_decide_unpack _). vm_compute. exact I.
  - vm_compute. reflexivity.
Defined.

Lemma self_registered_admin_deletes_any_class_witness :
  ∃ u, (register toy_hashpw (effects_n "8") "salt" sample_signup sample_users).2 = Ok u
    ∧ User.role u = "admin"
    ∧ (delete_class "c2" u sample_classes).2 = Ok "Class deleted successfully".
Proof.
  apply (self_registered_admin_deletes_any_class toy_hashpw (effects_n "8") "salt"
           sample_signup sample_users "c2" sample_classes).
  - apply (bool_decide_unpack _). vm_compute. exact I.
  - reflexivity.
  - apply (bool_decide_unpack _). vm_compute. exact I.
Defined.

Example login_run :
  login toy_checkpw toy_jwt_encode toy_plus_minutes (effects_n "9")
    (UserLogin.mk "a@school.test" "pw-a") sample_users
  = Ok (Token.mk "u-a.t1-9+1440" "bearer" teacher_a)
  ∧ login toy_checkpw toy_jwt_encode toy_plus_minutes (effects_n "9")
      (UserLogin.mk "a@school.test" "wrong") sample_users
    = Raise (HTTPException 401 "Invalid email or password")
  ∧ login toy_checkpw toy_jwt_encode toy_plus_minutes (effects_n "9")
      (UserLogin.mk "nobody@school.test" "pw-a") sample_users
    = Raise (HTTPException 401 "Invalid email or password").
Proof. repeat split; vm_compute; reflexivity. Qed.

(** ** Dashboard *)

Lemma StronglySorted_app_inv {A} (R : relation A) l1 l2 :
  StronglySorted R (l1 ++ l2) →
  StronglySorted R l1 ∧ ∀ x y, x ∈ l1 → y ∈ l2 → R x y.
Proof.
  induction l1 as [|z l1 IH]; simpl; intros Hs.
  - split; [constructor|]. intros x y Hx. by apply elem_of_nil in Hx.
  - apply StronglySorted_inv in Hs as [Hs Hz]. destruct (IH Hs) as [Hs1 Hcross].
    split.
    + constructor; [done|]. apply Forall_forall. intros x Hx.
      rewrite Forall_forall in Hz. apply Hz, elem_of_app. by left.
    + intros x y [->|Hx]%elem_of_cons Hy; [|by apply Hcross].
      rewrite Forall_forall in Hz. apply Hz, elem_of_app. by right.
Qed.

Global Instance newer_first_trans : Transitive newer_first.
Proof. intros a b c Hab Hbc. unfold newer_first in *. by eapply str_le_trans. Qed.

Global Instance newer_first_total : Total newer_first.
Proof. intros a b. unfold newer_first, str_le. apply String.leb_total. Qed.

Section dashboard_facts.
Variable sort_created_at_desc : list Attendance.t → list Attendance.t.

(** X21. The dashboard's counts against the listings. [total_classes]
    is the number of classes [get_classes] would list for the caller
    without its cap, so the listing has [min 1000 total_classes] entries;
    [total_students] is the number of all students, whoever calls; and
    [today_attendance] is the number of records dated today, which is the
    length of the query for that date when the date is not empty and at most
    10000 records have it. *)
Theorem dashboard_counts_match_listings
    (today : string) (u : User.t) (classes : list Klass.t) (students : list Student.t)
    (attendance : list Attendance.t) :
  let stats := get_dashboard_stats sort_created_at_desc today u classes students
                 attendance in
  length (get_classes u classes) = 1000 `min` DashboardStats.total_classes stats
  ∧ DashboardStats.total_students stats = length students
  ∧ (today ≠ "" → (DashboardStats.today_attendance stats ≤ 10000)%nat →
     length (get_attendance None None (Some today) None None attendance)
     = DashboardStats.today_attendance stats).
Proof.
  intros stats. subst stats. unfold get_dashboard_stats, count_documents.
  cbn [DashboardStats.total_classes DashboardStats.total_students
       DashboardStats.today_attendance].
  split; [|split].
  - unfold get_classes, Mongo.find. apply length_take.
  - f_equal. induction students as [|s students IH]; [done|].
    by rewrite filter_cons_True, IH.
  - intros Htoday Hle. unfold get_attendance, attendance_query, Mongo.find. simpl.
    rewrite bool_decide_eq_true_2 by done. simpl.
    rewrite take_ge; [f_equal|].
    + apply list_filter_iff. intros r. unfold matches, dated. simpl. tauto.
    + erewrite list_filter_iff; [exact Hle|].
      intros r. unfold matches, dated. simpl. tauto.
Qed.

(** X22. Whatever way the store orders records of equal [created_at],
    as long as its sort returns the records of the collection, newest
    first: the dashboard's recent attendance has [min 10 n] of the [n]
    stored records, newest first, and none of the records left out is
    newer than any record shown. *)
Theorem dashboard_recent_is_newest_ten
    (today : string) (u : User.t) (classes : list Klass.t) (students : list Student.t)
    (attendance : list Attendance.t) :
  sort_created_at_desc attendance ≡ₚ attendance →
  StronglySorted newer_first (sort_created_at_desc attendance) →
  let recent := DashboardStats.recent_attendance
                  (get_dashboard_stats sort_created_at_desc today u classes students
                     attendance) in
  length recent = 10 `min` length attendance
  ∧ StronglySorted newer_first recent
  ∧ ∃ rest, attendance ≡ₚ recent ++ rest
      ∧ ∀ x y, x ∈ recent → y ∈ rest →
          str_le (Attendance.created_at y) (Attendance.created_at x).
Proof.
  intros Hperm Hsorted recent. subst recent. unfold get_dashboard_stats.
  cbn [DashboardStats.recent_attendance]. rewrite take_take, Nat.min_id.
  rewrite <- (take_drop 10 (sort_created_at_desc attendance)) in Hsorted.
  apply StronglySorted_app_inv in Hsorted as [Hs Hcross].
  split; [by rewrite length_take, Hperm|]. split; [done|].
  exists (drop 10 (sort_created_at_desc attendance)).
  split; [by rewrite take_drop|]. exact Hcross.
Qed.
End dashboard_facts.

Lemma dashboard_counts_match_listings_witness :
  length (get_attendance None None (Some "2024-01-10") None None sample_attendance)
  = DashboardStats.today_attendance
      (get_dashboard_stats (merge_sort newer_first) "2024-01-10" teacher_a sample_classes
         sample_students sample_attendance).
Proof.
  apply (dashboard_counts_match_listings (merge_sort newer_first) "2024-01-10" teacher_a
           sample_classes sample_students sample_attendance).
  - discriminate.
  - vm_compute. lia.
Defined.

Lemma dashboard_recent_is_newest_ten_witness :
  let recent := DashboardStats.recent_attendance
                  (get_dashboard_stats (merge_sort newer_first) "2024-01-10" teacher_a
                     sample_classes sample_students (mark_all sample_calls [])) in
  length recent = 10 `min` length (mark_all sample_calls [])
  ∧ StronglySorted newer_first recent
  ∧ ∃ rest, mark_all sample_calls [] ≡ₚ recent ++ rest
      ∧ ∀ x y, x ∈ recent → y ∈ rest →
          str_le (Attendance.created_at y) (Attendance.created_at x).
Proof.
  apply (dashboard_recent_is_newest_ten (merge_sort newer_first) "2024-01-10" teacher_a
           sample_classes sample_students (mark_all sample_calls [])).
  - apply merge_sort_Permutation.
  - apply (StronglySorted_merge_sort newer_first).
Defined.

Example dashboard_run :
  get_dashboard_stats (merge_sort newer_first) "2024-01-05" teacher_a sample_classes
    sample_students (mark_all sample_calls [])
  = DashboardStats.mk 1 3 2
      [ Attendance.mk "id-2" "s2" "c1" "2024-01-05" "absent" "u-a" None "t1-2" "t2-2";
        Attendance.mk "id-1" "s1" "c1" "2024-01-05" "late" "u-b" (Some "bus") "t1-1"
          "t1-3" ].
Proof. vm_compute. reflexivity. Qed.
